(** * parse_articles.py: content segmentation and cross-level aggregation

    A shallow embedding of [src/parse_articles.py] and the proofs of the
    properties its specification states.

    Python [str] values are modelled as lists of characters.  A character is a
    Unicode code point below 256 (the Latin-1 range), carried by [ascii]; on
    that range [str.lower] is a character-wise map and [str.isspace],
    regex [\s] and regex [\d] are the finite classes written out below.
    Python [int] values are [Z].

    Where the code uses an index found in [s.lower()] as a position in [s]
    (the writing-prompt split of level 6), the code is embedded a second
    time, in [Wide], over strings of arbitrary code points and with
    [str.lower] as a parameter. *)

From Stdlib Require Import Ascii String ZArith Lia Bool Arith.
From Stdlib Require Import DecimalString DecimalN DecimalFacts.
From Stdlib Require Import List.
Import ListNotations.

Definition str := list ascii.

(** A string literal of the source. *)
Definition lit (s : string) : str := list_ascii_of_string s.

Definition nl : ascii := ascii_of_nat 10.

(** ** Python string primitives *)

Module Py.

(** [str.isspace] on one character, which is also the class of regex [\s]. *)
Definition isspace (c : ascii) : bool :=
  let n := nat_of_ascii c in
  ((9 <=? n) && (n <=? 13)) || ((28 <=? n) && (n <=? 32))
  || (n =? 133) || (n =? 160).

(** Regex [\d]. *)
Definition isdigit (c : ascii) : bool :=
  let n := nat_of_ascii c in (48 <=? n) && (n <=? 57).

(** Regex [a-z] and [A-Z]. *)
Definition is_az (c : ascii) : bool :=
  let n := nat_of_ascii c in (97 <=? n) && (n <=? 122).

Definition is_AZ (c : ascii) : bool :=
  let n := nat_of_ascii c in (65 <=? n) && (n <=? 90).

(** [str.lower] on one character: A-Z, and the Latin-1 capitals
    U+00C0..U+00DE except the multiplication sign U+00D7. *)
Definition lower_char (c : ascii) : ascii :=
  let n := nat_of_ascii c in
  if ((65 <=? n) && (n <=? 90))
     || ((192 <=? n) && (n <=? 222) && negb (n =? 215))
  then ascii_of_nat (n + 32) else c.

Definition lower (s : str) : str := map lower_char s.

Fixpoint lstrip (s : str) : str :=
  match s with
  | [] => []
  | c :: t => if isspace c then lstrip t else s
  end.

Definition rstrip (s : str) : str := rev (lstrip (rev s)).

(** [s.strip()] *)
Definition strip (s : str) : str := rstrip (lstrip s).

(** [s.startswith(p)] *)
Fixpoint startswith (p s : str) : bool :=
  match p, s with
  | [], _ => true
  | _ :: _, [] => false
  | a :: p', b :: s' => Ascii.eqb a b && startswith p' s'
  end.

(** [s.endswith(p)] *)
Definition endswith (p s : str) : bool := startswith (rev p) (rev s).

(** [s.find(sub)]: the lowest index where [sub] occurs, or -1. *)
Fixpoint find (sub s : str) {struct s} : Z :=
  if startswith sub s then 0%Z
  else match s with
       | [] => (-1)%Z
       | _ :: t => let r := find sub t in
                   if (r =? -1)%Z then (-1)%Z else (r + 1)%Z
       end.

(** [sub in s] *)
Fixpoint str_in (sub s : str) {struct s} : bool :=
  startswith sub s
  || match s with
     | [] => false
     | _ :: t => str_in sub t
     end.

(** [s[:i]] and [s[i:]] for an index [i >= 0] (the source only slices at an
    index it has checked to differ from -1). *)
Definition slice_to (s : str) (i : Z) : str := firstn (Z.to_nat i) s.
Definition slice_from (s : str) (i : Z) : str := skipn (Z.to_nat i) s.

(** [s.split(sep)] for a one-character separator: never the empty list. *)
Fixpoint split (sep : ascii) (s : str) : list str :=
  match s with
  | [] => [[]]
  | c :: t =>
      if Ascii.eqb c sep then [] :: split sep t
      else match split sep t with
           | l :: ls => (c :: l) :: ls
           | [] => [[c]]
           end
  end.

(** [sep.join(l)] *)
Fixpoint join (sep : str) (l : list str) : str :=
  match l with
  | [] => []
  | x :: rest =>
      match rest with
      | [] => x
      | _ :: _ => x ++ sep ++ join sep rest
      end
  end.

(** [s.replace(old, new)] for a non-empty [old]: the occurrences of [old] are
    replaced left to right without overlap.  [skip] counts the characters of
    an occurrence still to be passed over. *)
Fixpoint replace_from (old new : str) (skip : nat) (s : str) : str :=
  match s with
  | [] => []
  | c :: t =>
      match skip with
      | S k => replace_from old new k t
      | O => if startswith old s
             then new ++ replace_from old new (length old - 1) t
             else c :: replace_from old new 0 t
      end
  end.

Definition replace (old new s : str) : str := replace_from old new 0 s.

Fixpoint str_eqb (a b : str) : bool :=
  match a, b with
  | [], [] => true
  | x :: a', y :: b' => Ascii.eqb x y && str_eqb a' b'
  | _, _ => false
  end.

(** [bool(s)]: a string is true when it is not empty. *)
Definition truthy (s : str) : bool :=
  match s with [] => false | _ :: _ => true end.

End Py.

(** ** The content segmenter *)

Definition parsed : Type := (str * str * str * str)%type.

Definition instruction_markers : list str :=
  [ lit "Write a full sentence"; lit "Write a full-sentence";
    lit "Answer each question"; lit "Write full sentences";
    lit "In your Vocab Notebook" ].

(** The inner loop of [extract_instruction_and_questions]: the index of the
    first line, counted from [i], that contains [marker] in lower case. *)
Fixpoint first_line_with (marker : str) (i : nat) (lines : list str)
  : option nat :=
  match lines with
  | [] => None
  | line :: rest =>
      if Py.str_in (Py.lower marker) (Py.lower line) then Some i
      else first_line_with marker (S i) rest
  end.

(** The outer loop of [extract_instruction_and_questions] over the markers
    still to try; [("", homework_content)] are the initial values of
    [instruction] and [questions]. *)
Fixpoint marker_loop (markers : list str) (homework_content : str)
  : str * str :=
  match markers with
  | [] => ([], homework_content)
  | marker :: more =>
      let index := Py.find (Py.lower marker) (Py.lower homework_content) in
      if negb (index =? -1)%Z then
        let lines := Py.split nl homework_content in
        match first_line_with marker 0 lines with
        | Some i =>
            (Py.strip (nth i lines []),
             Py.strip (Py.join [nl] (skipn (i + 1) lines)))
        | None => marker_loop more homework_content
        end
      else marker_loop more homework_content
  end.

Definition extract_instruction_and_questions (homework_content : str)
  : str * str :=
  marker_loop instruction_markers homework_content.

Definition writing_prompt_markers : list str :=
  [ lit "Free Writing"; lit "Academic Writing"; lit "Writing Practice";
    lit "writing practice" ].

(** The marker loop of [parse_level_6_content]: the value of [writing_index]
    when the loop ends. *)
Fixpoint find_writing_index (markers : list str) (after_homework : str) : Z :=
  match markers with
  | [] => (-1)%Z
  | marker :: more =>
      let index := Py.find (Py.lower marker) (Py.lower after_homework) in
      if negb (index =? -1)%Z then index
      else find_writing_index more after_homework
  end.

Definition parse_level_6_content (article_text after_homework : str)
  : parsed :=
  let writing_index := find_writing_index writing_prompt_markers after_homework in
  if negb (writing_index =? -1)%Z then
    let before_writing := Py.strip (Py.slice_to after_homework writing_index) in
    let writing_prompt := Py.strip (Py.slice_from after_homework writing_index) in
    let '(instruction, questions) :=
      extract_instruction_and_questions before_writing in
    (article_text, instruction, questions, writing_prompt)
  else
    let '(instruction, questions) :=
      extract_instruction_and_questions after_homework in
    (article_text, instruction, questions, []).

Definition parse_level_1_and_3_content (article_text after_homework : str)
  : parsed :=
  let '(instruction, questions) :=
    extract_instruction_and_questions after_homework in
  (article_text, instruction, questions, []).

Definition HOMEWORK : str := lit "Homework:".

Definition parse_level_content (full_text : str) (level : Z) : parsed :=
  if negb (Py.truthy full_text) then ([], [], [], [])
  else
    let homework_index := Py.find HOMEWORK full_text in
    if (homework_index =? -1)%Z then (Py.strip full_text, [], [], [])
    else
      let article_text := Py.strip (Py.slice_to full_text homework_index) in
      let after_homework :=
        Py.strip (Py.slice_from full_text
                    (homework_index + Z.of_nat (length HOMEWORK))) in
      if (level =? 6)%Z
      then parse_level_6_content article_text after_homework
      else parse_level_1_and_3_content article_text after_homework.

Definition article_text_of (p : parsed) : str :=
  let '(a, _, _, _) := p in a.

(** ** The filename normalizer *)

Fixpoint take_while (f : ascii -> bool) (s : str) : str :=
  match s with
  | [] => []
  | c :: t => if f c then c :: take_while f t else []
  end.

Fixpoint drop_while (f : ascii -> bool) (s : str) : str :=
  match s with
  | [] => []
  | c :: t => if f c then drop_while f t else s
  end.

Definition DOCX : str := lit ".docx".
Definition LVL : str := lit "Lvl ".
Definition BREAKING_NEWS_ENGLISH : str := lit "Breaking News English".

(** [re.sub(r'^Lvl \d+\s*', '', s)]: the pattern is anchored at the start of
    the string, [\d+] and [\s*] are greedy and nothing follows them, so the
    one possible match is "Lvl ", the longest run of digits (at least one) and
    the longest run of white space after it. *)
Definition sub_level_prefix (s : str) : str :=
  if Py.startswith LVL s then
    let r := skipn (length LVL) s in
    match take_while Py.isdigit r with
    | [] => s
    | _ :: _ => drop_while Py.isspace (drop_while Py.isdigit r)
    end
  else s.

(** [.*$] tried on the rest of the string: [.] matches no newline and [$]
    matches at the end of the string or before a newline that ends it.  The
    result is what stays after the match: nothing, or that last newline. *)
Definition match_to_end (rest : str) : option str :=
  if negb (existsb (Ascii.eqb nl) rest) then Some []
  else match rev rest with
       | c :: r =>
           if Ascii.eqb c nl && negb (existsb (Ascii.eqb nl) r)
           then Some [nl] else None
       | [] => None
       end.

(** [\s*_\s*Breaking News English.*$] tried at the start of [s]: both [\s*]
    take the whole run of white space (a shorter run is followed by white
    space, never by the underscore or the "B"). *)
Definition match_attribution (s : str) : option str :=
  match drop_while Py.isspace s with
  | c :: r =>
      if Ascii.eqb c "_" then
        let r' := drop_while Py.isspace r in
        if Py.startswith BREAKING_NEWS_ENGLISH r'
        then match_to_end (skipn (length BREAKING_NEWS_ENGLISH) r')
        else None
      else None
  | [] => None
  end.

(** [re.sub(r'\s*_\s*Breaking News English.*$', '', s)]: the leftmost match is
    deleted; it reaches the end of the string (or the newline that ends it),
    so there is no second match. *)
Fixpoint sub_attribution (s : str) : str :=
  match s with
  | [] => []
  | c :: t =>
      match match_attribution s with
      | Some rest => rest
      | None => c :: sub_attribution t
      end
  end.

(** The class [[a-zA-Z0-9\s-]]. *)
Definition slug_class (c : ascii) : bool :=
  Py.is_az c || Py.is_AZ c || Py.isdigit c || Py.isspace c || Ascii.eqb c "-".

(** [re.sub(r'\s+', '-', s)]: [in_run] tells that the previous character was
    white space, already replaced. *)
Fixpoint sub_whitespace_runs (in_run : bool) (s : str) : str :=
  match s with
  | [] => []
  | c :: t =>
      if Py.isspace c
      then (if in_run then sub_whitespace_runs true t
            else "-"%char :: sub_whitespace_runs true t)
      else c :: sub_whitespace_runs false t
  end.

(** Lines 28-29 of [parse_filename]: the slug of a cleaned name. *)
Definition slugify (clean_name : str) : str :=
  let slug := Py.strip (Py.lower (filter slug_class clean_name)) in
  sub_whitespace_runs false slug.

Definition parse_filename (filename : str) : str :=
  let clean_name := sub_level_prefix (Py.replace DOCX [] filename) in
  let clean_name := sub_attribution clean_name in
  slugify clean_name.

(** ** The aggregator: [main] *)

(** [int(digits)] for a string of decimal digits. *)
Definition int_of_digits (ds : str) : Z :=
  fold_left (fun acc c => (10 * acc + (Z.of_nat (nat_of_ascii c) - 48))%Z) ds 0%Z.

(** [re.search(r'^Lvl (\d+)', filename)] and [int(level_match.group(1))]. *)
Definition level_match (filename : str) : option Z :=
  if Py.startswith LVL filename then
    match take_while Py.isdigit (skipn (length LVL) filename) with
    | [] => None
    | (_ :: _) as ds => Some (int_of_digits ds)
    end
  else None.

(** The decimal digits of [n >= 0]. *)
Definition decimal (n : Z) : str :=
  lit (NilEmpty.string_of_uint (N.to_uint (Z.to_N n))).

(** [str(n)]: the decimal digits, after the sign of a negative number. *)
Definition str_of_int (n : Z) : str :=
  if (n <? 0)%Z then "-"%char :: decimal (- n) else decimal n.

(** [s.rjust(width, '0')] *)
Definition zero_pad (width : nat) (s : str) : str :=
  repeat "0"%char (width - length s) ++ s.

(** [format(n, '03d')]: at least three characters, zeros on the left, after
    the sign of a negative number. *)
Definition format_03d (n : Z) : str :=
  if (n <? 0)%Z then "-"%char :: zero_pad 2 (decimal (- n))
  else zero_pad 3 (decimal n).

(** [f'level_{level}'] *)
Definition level_key (level : Z) : str := lit "level_" ++ str_of_int level.

(** A Python [dict] with [str] keys: the items in insertion order. *)
Section Dict.
Context {V : Type}.

Definition dict : Type := list (str * V).

Fixpoint dict_get (d : dict) (k : str) : option V :=
  match d with
  | [] => None
  | (k', v) :: r => if Py.str_eqb k' k then Some v else dict_get r k
  end.

(** [d[k] = v]: the value of an existing key is replaced where it is, a new
    key is added at the end. *)
Fixpoint dict_set (d : dict) (k : str) (v : V) : dict :=
  match d with
  | [] => [(k, v)]
  | (k', v') :: r =>
      if Py.str_eqb k' k then (k', v) :: r else (k', v') :: dict_set r k v
  end.
End Dict.
Arguments dict : clear implicits.

(** The dict stored under [articles[slug]['level_N']]. *)
Record level_entry : Type := {
  headline : str;
  article_text : str;
  instruction : str;
  questions : str;
  writing_prompt : str;
  filename : str
}.

(** [articles[slug][key] = entry] on the [defaultdict]: a slug seen for the
    first time gets an empty dict, at the end. *)
Definition store (articles : dict (dict level_entry)) (slug key : str)
    (entry : level_entry) : dict (dict level_entry) :=
  let levels := match dict_get articles slug with
                | Some levels => levels
                | None => []
                end in
  dict_set articles slug (dict_set levels key entry).

(** A document as [extract_text_from_docx] sees it: the text of its
    paragraphs, or [None] when opening it raises. *)
Definition docx : Type := option (list str).

Fixpoint paragraph_texts (paragraphs : list str) : list str :=
  match paragraphs with
  | [] => []
  | p :: more =>
      if Py.truthy (Py.strip p) then Py.strip p :: paragraph_texts more
      else paragraph_texts more
  end.

Definition extract_text_from_docx (doc : docx) : str :=
  match doc with
  | Some paragraphs => Py.join [nl] (paragraph_texts paragraphs)
  | None => []
  end.

(** [text.split('\n')[0].strip() if text else ""] *)
Definition headline_of (text : str) : str :=
  if Py.truthy text then Py.strip (nth 0 (Py.split nl text) []) else [].

(** The body of the loop over the directory up to the store: [None] is
    [continue]. *)
Definition read_file (file : str * docx) : option (str * Z * level_entry) :=
  let '(filename, doc) := file in
  if negb (Py.endswith DOCX filename) then None
  else
    match level_match filename with
    | None => None
    | Some level =>
        let slug := parse_filename filename in
        let text := extract_text_from_docx doc in
        if negb (Py.truthy text) then None
        else
          let '(article_text, instruction, questions, writing_prompt) :=
            parse_level_content text level in
          Some (slug, level,
                {| headline := headline_of text;
                   article_text := article_text;
                   instruction := instruction;
                   questions := questions;
                   writing_prompt := writing_prompt;
                   filename := filename |})
    end.

Definition process_file (articles : dict (dict level_entry))
    (file : str * docx) : dict (dict level_entry) :=
  match read_file file with
  | None => articles
  | Some (slug, level, entry) => store articles slug (level_key level) entry
  end.

Record fields : Type := {
  Headline : str;
  Slug : str;
  Image_URL : str;
  Level_0_Text : str;
  Level_0_Questions : str;
  Level_1_Text : str;
  Level_1_Questions : str;
  Level_1_Instruction : str;
  Level_2_Text : str;
  Level_2_Questions : str;
  Level_3_Text : str;
  Level_3_Questions : str;
  Level_3_Instruction : str;
  Level_4_Text : str;
  Level_4_Questions : str;
  Level_5_Text : str;
  Level_5_Questions : str;
  Level_6_Text : str;
  Level_6_Questions : str;
  Level_6_Instruction : str;
  Level_6_Writing_Prompt : str
}.

Record article_data : Type := {
  id : str;
  article_fields : fields
}.

(** [level[key] if level else ''] *)
Definition field_or_empty (level : option level_entry)
    (key : level_entry -> str) : str :=
  match level with
  | Some e => key e
  | None => []
  end.

Definition make_article (article_id : Z) (slug : str)
    (levels : dict level_entry) : article_data :=
  let level1 := dict_get levels (lit "level_1") in
  let level3 := dict_get levels (lit "level_3") in
  let level6 := dict_get levels (lit "level_6") in
  {| id := lit "rec" ++ format_03d article_id;
     article_fields :=
       {| Headline :=
            match level3 with
            | Some l3 => headline l3
            | None => match level1 with
                      | Some l1 => headline l1
                      | None => match level6 with
                                | Some l6 => headline l6
                                | None => []
                                end
                      end
            end;
          Slug := slug;
          Image_URL := [];
          Level_0_Text := [];
          Level_0_Questions := [];
          Level_1_Text := field_or_empty level1 article_text;
          Level_1_Questions := field_or_empty level1 questions;
          Level_1_Instruction := field_or_empty level1 instruction;
          Level_2_Text := [];
          Level_2_Questions := [];
          Level_3_Text := field_or_empty level3 article_text;
          Level_3_Questions := field_or_empty level3 questions;
          Level_3_Instruction := field_or_empty level3 instruction;
          Level_4_Text := [];
          Level_4_Questions := [];
          Level_5_Text := [];
          Level_5_Questions := [];
          Level_6_Text := field_or_empty level6 article_text;
          Level_6_Questions := field_or_empty level6 questions;
          Level_6_Instruction := field_or_empty level6 instruction;
          Level_6_Writing_Prompt := field_or_empty level6 writing_prompt |} |}.

(** The loop over [articles.items()] that fills [js_data]. *)
Fixpoint build_js_data (article_id : Z)
    (items : dict (dict level_entry)) : list article_data :=
  match items with
  | [] => []
  | (slug, levels) :: more =>
      make_article article_id slug levels :: build_js_data (article_id + 1) more
  end.

(** [main] up to the records it writes: [directory] is what [os.listdir]
    returns, each name with the document behind it. *)
Definition aggregate (directory : list (str * docx)) : dict (dict level_entry) :=
  fold_left process_file directory [].

Definition main (directory : list (str * docx)) : list article_data :=
  build_js_data 1 (aggregate directory).

(** ** Notions used by the statements *)

(** [sub] occurs in [s] at position [p]. *)
Definition occurs_at (sub s : str) (p : nat) : Prop :=
  exists pre post, s = pre ++ sub ++ post /\ length pre = p.

Definition occurs (sub s : str) : Prop := exists p, occurs_at sub s p.

Definition first_occurrence (sub s : str) (p : nat) : Prop :=
  occurs_at sub s p /\ forall q, occurs_at sub s q -> p <= q.

(** [line] contains [marker], letter case ignored. *)
Definition contains_ci (marker line : str) : Prop :=
  occurs (Py.lower marker) (Py.lower line).

(** A line is blank when it has white space only. *)
Definition blank (line : str) : bool := forallb Py.isspace line.

(** The first line of [text] that is not blank, trimmed; the empty string when
    every line is blank. *)
Definition first_nonblank_line (text : str) : str :=
  match List.find (fun line => negb (blank line)) (Py.split nl text) with
  | Some line => Py.strip line
  | None => []
  end.

(** The files that [main] does not skip, in directory order, each with its
    slug, its level and its parse. *)
Definition processed (directory : list (str * docx))
  : list (str * Z * level_entry) :=
  flat_map (fun file => match read_file file with
                        | Some x => [x]
                        | None => []
                        end) directory.

Definition slug_of (x : str * Z * level_entry) : str := fst (fst x).

(** The distinct strings of [l], each at the place where it comes first;
    [seen] are the strings met before [l]. *)
Fixpoint first_encounters (seen l : list str) : list str :=
  match l with
  | [] => []
  | x :: more =>
      if existsb (Py.str_eqb x) seen then first_encounters seen more
      else x :: first_encounters (x :: seen) more
  end.

(** The parse of the last processed file with this slug and this level. *)
Definition last_parse (directory : list (str * docx)) (slug : str) (level : Z)
  : option level_entry :=
  fold_left (fun found x =>
               let '(s, l, entry) := x in
               if Py.str_eqb s slug && (l =? level)%Z then Some entry
               else found)
            (processed directory) None.

(** ** Further notions and sample inputs *)

(** The entry stored for a slug and a key. *)
Definition lookup (articles : dict (dict level_entry)) (slug key : str)
  : option level_entry :=
  match dict_get articles slug with
  | Some levels => dict_get levels key
  | None => None
  end.

Definition slug_of_record (r : article_data) : str := Slug (article_fields r).

(** The characters of a slug: [a-z0-9-]. *)
Definition slug_char (c : ascii) : bool :=
  Py.is_az c || Py.isdigit c || Ascii.eqb c "-".

(** [s] is empty or its first character is not in the class [f]. *)
Definition not_first (f : ascii -> bool) (s : str) : bool :=
  match s with
  | [] => true
  | c :: _ => negb (f c)
  end.

(** [k] zeros before a numeral. *)
Fixpoint zeros_before (k : nat) (d : Decimal.uint) : Decimal.uint :=
  match k with
  | O => d
  | S k' => Decimal.D0 (zeros_before k' d)
  end.

(** The algorithm as the specification words it, where it differs from the
    source: the extension is cut at the end of the name only, and the
    attribution suffix is matched with the letter case ignored. *)
Module Claimed.

Definition strip_extension (name : str) : str :=
  if Py.endswith DOCX name then firstn (length name - length DOCX) name
  else name.

Definition match_attribution (s : str) : option str :=
  match drop_while Py.isspace s with
  | c :: r =>
      if Ascii.eqb c "_" then
        let r' := drop_while Py.isspace r in
        if Py.startswith (Py.lower BREAKING_NEWS_ENGLISH) (Py.lower r')
        then match_to_end (skipn (length BREAKING_NEWS_ENGLISH) r')
        else None
      else None
  | [] => None
  end.

Fixpoint sub_attribution (s : str) : str :=
  match s with
  | [] => []
  | c :: t =>
      match match_attribution s with
      | Some rest => rest
      | None => c :: sub_attribution t
      end
  end.

Definition slug (name : str) : str :=
  slugify (sub_attribution (sub_level_prefix (strip_extension name))).

End Claimed.

(** "Academic Writing" comes first in the text, "Free Writing" comes first in
    the list of markers. *)
Definition two_prompts : str :=
  Py.join [nl]
    [ lit "1. Why?"; lit "Academic Writing: an essay";
      lit "Free Writing: a diary" ].

Definition storm_name : str :=
  lit "Lvl 3 Storm hits city _ Breaking News English - ESL Lesson".

(** A directory of six entries: two files of one article at level 3 and one
    at level 1, one article at level 6, a file that is not a document and a
    document that cannot be read. *)
Definition sample_directory : list (str * docx) :=
  [ (lit "Lvl 3 Storm hits city _ Breaking News English.docx",
     Some [ lit "Storm hits city (3)"; lit "  "; lit "Body three.";
            lit "Homework:"; lit "Answer each question."; lit "1. Why?" ]);
    (lit "notes.txt", Some [lit "Notes"]);
    (lit "Lvl 1 Storm hits city.docx",
     Some [lit "Storm hits city (1)"; lit "Body one."]);
    (lit "Lvl 6 Flood _ Breaking News English.docx",
     Some [ lit "Flood"; lit "Body six."; lit "Homework:"; lit "1. Why?";
            lit "Free Writing: a diary" ]);
    (lit "Lvl 1 Broken.docx", None);
    (lit "Lvl 3 Storm hits city.docx", Some [lit "Storm again"]) ].

(** ** [parse_article_content] *)

(** [re.match(r'^\d+\.', s)]: the longest run of digits at the start of [s],
    at least one, and a dot after it (a shorter run of digits is followed by a
    digit, never by the dot). *)
Definition numbered (s : str) : bool :=
  match take_while Py.isdigit s with
  | [] => false
  | _ :: _ => Py.startswith ["."%char] (drop_while Py.isdigit s)
  end.

(** The loop over [enumerate(lines)]: the index, counted from [i], of the
    first line that is numbered once trimmed, or -1. *)
Fixpoint find_question_start (i : Z) (lines : list str) : Z :=
  match lines with
  | [] => (-1)%Z
  | line :: rest =>
      if numbered (Py.strip line) then i
      else find_question_start (i + 1) rest
  end.

(** [l[a:b]] for [0 <= a] and [0 <= b]. *)
Definition list_slice {A : Type} (l : list A) (a b : Z) : list A :=
  firstn (Z.to_nat b - Z.to_nat a) (skipn (Z.to_nat a) l).

Definition parse_article_content (text : str) : str * str * str :=
  let lines := Py.split nl text in
  let headline := match lines with
                  | line :: _ => Py.strip line
                  | [] => []
                  end in
  let question_start := find_question_start 0 lines in
  if (question_start =? -1)%Z
  then (headline, Py.join [nl] (skipn 1 lines), [])
  else
    let body_text := Py.strip (Py.join [nl] (list_slice lines 1 question_start)) in
    let questions_text :=
      Py.strip (Py.join [nl] (skipn (Z.to_nat question_start) lines)) in
    (headline, body_text, questions_text).

(** ** Notions used by the further statements *)

(** [s] has no white space at its start and none at its end. *)
Definition trimmed (s : str) : bool :=
  not_first Py.isspace s && not_first Py.isspace (rev s).

(** The text up to its first newline. *)
Definition first_line (text : str) : str :=
  take_while (fun c => negb (Ascii.eqb c nl)) text.

(** The fields of a record that has nothing but its slug. *)
Definition empty_fields (slug : str) : fields :=
  {| Headline := []; Slug := slug; Image_URL := [];
     Level_0_Text := []; Level_0_Questions := [];
     Level_1_Text := []; Level_1_Questions := []; Level_1_Instruction := [];
     Level_2_Text := []; Level_2_Questions := [];
     Level_3_Text := []; Level_3_Questions := []; Level_3_Instruction := [];
     Level_4_Text := []; Level_4_Questions := [];
     Level_5_Text := []; Level_5_Questions := [];
     Level_6_Text := []; Level_6_Questions := []; Level_6_Instruction := [];
     Level_6_Writing_Prompt := [] |}.

(** The four fields of a parse are trimmed. *)
Definition all_trimmed (p : parsed) : bool :=
  let '(a, i, q, w) := p in trimmed a && trimmed i && trimmed q && trimmed w.

Definition instruction_of (p : parsed) : str :=
  let '(_, i, _, _) := p in i.

Definition questions_of (p : parsed) : str :=
  let '(_, _, q, _) := p in q.

Definition writing_prompt_of (p : parsed) : str :=
  let '(_, _, _, w) := p in w.

(** A text with a homework block and no writing-prompt marker. *)
Definition homework_text : str :=
  Py.join [nl]
    [ lit "Storm hits city"; lit "Body."; lit "Homework:";
      lit "Answer each question."; lit "1. Why?" ].

(** One step of [int_of_digits]. *)
Definition digit_step (acc : Z) (c : ascii) : Z :=
  (10 * acc + (Z.of_nat (nat_of_ascii c) - 48))%Z.

Definition level_of (x : str * Z * level_entry) : Z := snd (fst x).

(** The four strings are empty, or they are the parse at [level] of the text
    of a file of the directory that has this slug and this level. *)
Definition comes_from (directory : list (str * docx)) (slug : str) (level : Z)
    (article instr quest prompt : str) : Prop :=
  (article = [] /\ instr = [] /\ quest = [] /\ prompt = [])
  \/ (exists name doc,
        In (name, doc) directory
        /\ parse_filename name = slug
        /\ level_match name = Some level
        /\ parse_level_content (extract_text_from_docx doc) level
           = (article, instr, quest, prompt)).

(** A directory with one document, at level 2. *)
Definition level_2_directory : list (str * docx) :=
  [ (lit "Lvl 2 Flood.docx", Some [lit "Flood"; lit "Body two."]) ].

(** ** The writing-prompt split over all of Unicode

    [parse_level_6_content] looks for a marker in [after_homework.lower()] and
    cuts [after_homework] itself at the index it finds.  Whether that index is
    a position of the marker in [after_homework] depends on [str.lower]
    keeping every character in its place, which it does not on U+0130.  This
    module embeds lines 55-80 and 88-110 a second time, over strings of arbitrary code
    points and with [str.lower] as a parameter. *)

Module Wide.

(** A Python [str]: the list of its code points. *)
Definition wstr : Type := list N.

(** A literal of the source. *)
Definition wlit (s : string) : wstr := map N_of_ascii (list_ascii_of_string s).

Definition nl : N := 10%N.

(** [str.isspace] on one code point of Unicode. *)
Definition isspace (c : N) : bool :=
  (((9 <=? c) && (c <=? 13)) || ((28 <=? c) && (c <=? 32))
   || (c =? 133) || (c =? 160) || (c =? 5760)
   || ((8192 <=? c) && (c <=? 8202))
   || (c =? 8232) || (c =? 8233) || (c =? 8239) || (c =? 8287)
   || (c =? 12288))%N.

Fixpoint lstrip (s : wstr) : wstr :=
  match s with
  | [] => []
  | c :: t => if isspace c then lstrip t else s
  end.

Definition rstrip (s : wstr) : wstr := rev (lstrip (rev s)).

(** [s.strip()] *)
Definition strip (s : wstr) : wstr := rstrip (lstrip s).

(** [s.startswith(p)] *)
Fixpoint startswith (p s : wstr) : bool :=
  match p, s with
  | [], _ => true
  | _ :: _, [] => false
  | a :: p', b :: s' => N.eqb a b && startswith p' s'
  end.

(** [s.find(sub)]: the lowest index where [sub] occurs, or -1. *)
Fixpoint find (sub s : wstr) {struct s} : Z :=
  if startswith sub s then 0%Z
  else match s with
       | [] => (-1)%Z
       | _ :: t => let r := find sub t in
                   if (r =? -1)%Z then (-1)%Z else (r + 1)%Z
       end.

(** [sub in s] *)
Fixpoint str_in (sub s : wstr) {struct s} : bool :=
  startswith sub s
  || match s with
     | [] => false
     | _ :: t => str_in sub t
     end.

(** [s[:i]] and [s[i:]] for an index [i >= 0]. *)
Definition slice_to (s : wstr) (i : Z) : wstr := firstn (Z.to_nat i) s.
Definition slice_from (s : wstr) (i : Z) : wstr := skipn (Z.to_nat i) s.

(** [s.split(sep)] for a one-character separator. *)
Fixpoint split (sep : N) (s : wstr) : list wstr :=
  match s with
  | [] => [[]]
  | c :: t =>
      if N.eqb c sep then [] :: split sep t
      else match split sep t with
           | l :: ls => (c :: l) :: ls
           | [] => [[c]]
           end
  end.

(** [sep.join(l)] *)
Fixpoint join (sep : wstr) (l : list wstr) : wstr :=
  match l with
  | [] => []
  | x :: rest =>
      match rest with
      | [] => x
      | _ :: _ => x ++ sep ++ join sep rest
      end
  end.

Definition parsed : Type := (wstr * wstr * wstr * wstr)%type.

Definition instruction_markers : list wstr :=
  [ wlit "Write a full sentence"; wlit "Write a full-sentence";
    wlit "Answer each question"; wlit "Write full sentences";
    wlit "In your Vocab Notebook" ].

Definition writing_prompt_markers : list wstr :=
  [ wlit "Free Writing"; wlit "Academic Writing"; wlit "Writing Practice";
    wlit "writing practice" ].

Section Lower.

(** [str.lower] *)
Variable lower : wstr -> wstr.

(** The inner loop of [extract_instruction_and_questions]. *)
Fixpoint first_line_with (marker : wstr) (i : nat) (lines : list wstr)
  : option nat :=
  match lines with
  | [] => None
  | line :: rest =>
      if str_in (lower marker) (lower line) then Some i
      else first_line_with marker (S i) rest
  end.

(** The outer loop of [extract_instruction_and_questions]. *)
Fixpoint marker_loop (markers : list wstr) (homework_content : wstr)
  : wstr * wstr :=
  match markers with
  | [] => ([], homework_content)
  | marker :: more =>
      let index := find (lower marker) (lower homework_content) in
      if negb (index =? -1)%Z then
        let lines := split nl homework_content in
        match first_line_with marker 0 lines with
        | Some i =>
            (strip (nth i lines []),
             strip (join [nl] (skipn (i + 1) lines)))
        | None => marker_loop more homework_content
        end
      else marker_loop more homework_content
  end.

Definition extract_instruction_and_questions (homework_content : wstr)
  : wstr * wstr :=
  marker_loop instruction_markers homework_content.

(** The marker loop of [parse_level_6_content]: the value of [writing_index]
    when the loop ends. *)
Fixpoint find_writing_index (markers : list wstr) (after_homework : wstr)
  : Z :=
  match markers with
  | [] => (-1)%Z
  | marker :: more =>
      let index := find (lower marker) (lower after_homework) in
      if negb (index =? -1)%Z then index
      else find_writing_index more after_homework
  end.

Definition parse_level_6_content (article_text after_homework : wstr)
  : parsed :=
  let writing_index := find_writing_index writing_prompt_markers after_homework in
  if negb (writing_index =? -1)%Z then
    let before_writing := strip (slice_to after_homework writing_index) in
    let writing_prompt := strip (slice_from after_homework writing_index) in
    let '(instruction, questions) :=
      extract_instruction_and_questions before_writing in
    (article_text, instruction, questions, writing_prompt)
  else
    let '(instruction, questions) :=
      extract_instruction_and_questions after_homework in
    (article_text, instruction, questions, []).

End Lower.

(** [sub] occurs in [s] at position [p]. *)
Definition occurs_at (sub s : wstr) (p : nat) : Prop :=
  exists pre post, s = pre ++ sub ++ post /\ length pre = p.

Definition occurs (sub s : wstr) : Prop := exists p, occurs_at sub s p.

Definition first_occurrence (sub s : wstr) (p : nat) : Prop :=
  occurs_at sub s p /\ forall q, occurs_at sub s q -> p <= q.

(** The lower case of one code point below U+0100; the other code points are
    left as they are. *)
Definition lower_code_point (c : N) : N :=
  (if ((65 <=? c) && (c <=? 90))
      || ((192 <=? c) && (c <=? 222) && negb (c =? 215))
   then c + 32 else c)%N.

(** [str.lower] on the strings whose code points are below U+0100 or are
    U+0130, the capital I with a dot above, of which it makes two code
    points: an i (U+0069) and a combining dot (U+0307). *)
Definition lower_with_dotted_I (s : wstr) : wstr :=
  flat_map (fun c => if (c =? 304)%N then [105%N; 775%N]
                     else [lower_code_point c]) s.

(** "Academic Writing" comes first in the text, "Free Writing" comes first in
    the list of markers. *)
Definition two_prompts : wstr :=
  join [nl]
    [ wlit "1. Why?"; wlit "Academic Writing: an essay";
      wlit "Free Writing: a diary" ].

(** The same block after two capital I with a dot above. *)
Definition dotted_two_prompts : wstr :=
  [304%N; 304%N; 32%N] ++ two_prompts.

End Wide.


(** A-Z made a-z, every other character left as it is. *)
Definition ascii_lower_char (c : ascii) : ascii :=
  if Py.is_AZ c then ascii_of_nat (nat_of_ascii c + 32) else c.

(** * Proofs *)

(** ** Characters *)

Ltac each_char_under c :=
  destruct c as [[] [] [] [] [] [] [] []]; vm_compute; intros;
  try reflexivity; try discriminate; auto.

(** ** Prefixes and occurrences *)

Lemma startswith_app (p post : str) : Py.startswith p (p ++ post) = true.
Proof.
  induction p as [|a p IH]; simpl; [destruct post; reflexivity|].
  now rewrite Ascii.eqb_refl, IH.
Qed.

Lemma startswith_true (p s : str) :
  Py.startswith p s = true -> exists post, s = p ++ post.
Proof.
  revert s; induction p as [|a p IH]; intros s H.
  - now exists s.
  - destruct s as [|b s]; simpl in H; [discriminate|].
    apply andb_true_iff in H as [Hab H].
    apply Ascii.eqb_eq in Hab; subst b.
    destruct (IH _ H) as [post ->]. now exists post.
Qed.

Lemma startswith_iff (p s : str) :
  Py.startswith p s = true <-> exists post, s = p ++ post.
Proof.
  split; [apply startswith_true|].
  intros [post ->]; apply startswith_app.
Qed.

Lemma occurs_at_0 (sub s : str) :
  occurs_at sub s 0 <-> Py.startswith sub s = true.
Proof.
  rewrite startswith_iff. split.
  - intros (pre & post & -> & Hl). destruct pre; [|discriminate].
    now exists post.
  - intros [post ->]. now exists [], post.
Qed.

Lemma occurs_at_S (sub : str) (c : ascii) (s : str) (p : nat) :
  occurs_at sub (c :: s) (S p) <-> occurs_at sub s p.
Proof.
  split.
  - intros (pre & post & E & Hl). destruct pre as [|a pre]; [discriminate|].
    simpl in E, Hl. injection E as -> ->. injection Hl as Hl.
    now exists pre, post.
  - intros (pre & post & -> & Hl). exists (c :: pre), post.
    simpl. now rewrite Hl.
Qed.

Lemma occurs_at_nil (sub : str) (p : nat) :
  occurs_at sub [] p -> p = 0 /\ sub = [].
Proof.
  intros (pre & post & E & Hl).
  symmetry in E. apply app_eq_nil in E as [-> E].
  apply app_eq_nil in E as [-> _]. now subst p.
Qed.

(** What [find] returns: -1 when there is no occurrence, the first position
    of an occurrence otherwise. *)
Lemma find_spec (sub s : str) :
  (Py.find sub s = (-1)%Z /\ ~ occurs sub s)
  \/ (exists p, Py.find sub s = Z.of_nat p /\ first_occurrence sub s p).
Proof.
  induction s as [|c s IH].
  - simpl. destruct (Py.startswith sub []) eqn:E.
    + right. exists 0. split; [reflexivity|]. split; [now apply occurs_at_0|].
      intros; lia.
    + left. split; [reflexivity|]. intros [p H].
      apply occurs_at_nil in H as [-> ->]. discriminate.
  - simpl. destruct (Py.startswith sub (c :: s)) eqn:E.
    + right. exists 0. split; [reflexivity|]. split; [now apply occurs_at_0|].
      intros; lia.
    + destruct IH as [[Hf Hno]|(p & Hf & Ho & Hmin)].
      * left. rewrite Hf. split; [reflexivity|]. intros [[|q] H].
        -- apply occurs_at_0 in H. congruence.
        -- apply occurs_at_S in H. apply Hno. now exists q.
      * right. exists (S p). rewrite Hf.
        destruct (Z.eqb_spec (Z.of_nat p) (-1)); [lia|].
        split; [lia|]. split; [now apply occurs_at_S|].
        intros [|q] H.
        -- apply occurs_at_0 in H. congruence.
        -- apply occurs_at_S in H. apply Hmin in H. lia.
Qed.

Lemma find_absent (sub s : str) :
  Py.find sub s = (-1)%Z <-> ~ occurs sub s.
Proof.
  destruct (find_spec sub s) as [[Hf Hno]|(p & Hf & Ho & _)].
  - tauto.
  - split; [lia|]. intros H. exfalso. apply H. now exists p.
Qed.

Lemma find_first_occurrence (sub s : str) (p : nat) :
  Py.find sub s = Z.of_nat p <-> first_occurrence sub s p.
Proof.
  destruct (find_spec sub s) as [[Hf Hno]|(q & Hf & Ho & Hmin)].
  - split; [lia|]. intros [H _]. exfalso. apply Hno. now exists p.
  - split.
    + intros H. assert (p = q) by lia. subst q. now split.
    + intros [H1 H2]. apply Hmin in H1. apply H2 in Ho. lia.
Qed.

Lemma str_in_occurs (sub s : str) :
  Py.str_in sub s = true <-> occurs sub s.
Proof.
  induction s as [|c s IH]; simpl.
  - rewrite orb_false_r, <- occurs_at_0. split; [intros H; now exists 0|].
    intros [p H]. destruct (occurs_at_nil _ _ H) as [-> _]. exact H.
  - rewrite orb_true_iff, IH, <- occurs_at_0. split.
    + intros [H|[p H]]; [now exists 0|]. exists (S p). now apply occurs_at_S.
    + intros [[|p] H]; [now left|]. right. exists p. now apply occurs_at_S in H.
Qed.

Lemma str_in_false (sub s : str) :
  Py.str_in sub s = false <-> ~ occurs sub s.
Proof.
  rewrite <- str_in_occurs. destruct (Py.str_in sub s); split; congruence.
Qed.

Lemma find_str_in (sub s : str) :
  (Py.find sub s =? -1)%Z = negb (Py.str_in sub s).
Proof.
  destruct (Z.eqb_spec (Py.find sub s) (-1)) as [H|H].
  - apply find_absent, str_in_false in H. now rewrite H.
  - destruct (Py.str_in sub s) eqn:E; [reflexivity|].
    apply str_in_false, find_absent in E. contradiction.
Qed.

(** An occurrence in a part of a string is an occurrence in the string. *)
Lemma occurs_infix (sub a t b : str) :
  occurs sub t -> occurs sub (a ++ t ++ b).
Proof.
  intros (p & pre & post & -> & _).
  exists (length (a ++ pre)), (a ++ pre), (post ++ b).
  split; [|reflexivity]. now rewrite <- !app_assoc.
Qed.

(** ** Trimming *)

Lemma lstrip_decomp (s : str) :
  exists a, s = a ++ Py.lstrip s /\ forallb Py.isspace a = true.
Proof.
  induction s as [|c s (a & E & Ha)]; [now exists []|].
  simpl. destruct (Py.isspace c) eqn:Hc.
  - exists (c :: a). simpl. rewrite Hc, Ha. now rewrite <- E.
  - now exists [].
Qed.

Lemma rstrip_decomp (s : str) :
  exists b, s = Py.rstrip s ++ b /\ forallb Py.isspace b = true.
Proof.
  unfold Py.rstrip. destruct (lstrip_decomp (rev s)) as (a & E & Ha).
  exists (rev a). split.
  - rewrite <- rev_app_distr, <- E. now rewrite rev_involutive.
  - rewrite forallb_forall in *. intros x Hx. apply Ha. now apply in_rev.
Qed.

Lemma strip_decomp (s : str) :
  exists a b, s = a ++ Py.strip s ++ b
              /\ forallb Py.isspace a = true /\ forallb Py.isspace b = true.
Proof.
  unfold Py.strip.
  destruct (lstrip_decomp s) as (a & Ea & Ha).
  destruct (rstrip_decomp (Py.lstrip s)) as (b & Eb & Hb).
  exists a, b. repeat split; try assumption.
  now rewrite <- Eb.
Qed.

Lemma occurs_strip (sub s : str) : occurs sub (Py.strip s) -> occurs sub s.
Proof.
  intros H. destruct (strip_decomp s) as (a & b & E & _).
  rewrite E. now apply occurs_infix.
Qed.

Lemma lstrip_head (s : str) (c : ascii) (t : str) :
  Py.lstrip s = c :: t -> Py.isspace c = false.
Proof.
  induction s as [|d s IH]; simpl; [discriminate|].
  destruct (Py.isspace d) eqn:Hd; [exact IH|].
  intros E. injection E as -> _. exact Hd.
Qed.

Lemma strip_head (s : str) (c : ascii) (t : str) :
  Py.strip s = c :: t -> Py.isspace c = false.
Proof.
  unfold Py.strip. intros E.
  destruct (rstrip_decomp (Py.lstrip s)) as (b & Eb & _).
  rewrite E in Eb. simpl in Eb. now apply lstrip_head in Eb.
Qed.

Lemma lstrip_nospace (s : str) :
  forallb (fun c => negb (Py.isspace c)) s = true -> Py.lstrip s = s.
Proof.
  destruct s as [|c s]; [reflexivity|]. simpl.
  destruct (Py.isspace c); [discriminate|reflexivity].
Qed.

Lemma strip_nospace (s : str) :
  forallb (fun c => negb (Py.isspace c)) s = true -> Py.strip s = s.
Proof.
  intros H. unfold Py.strip, Py.rstrip. rewrite (lstrip_nospace s H).
  rewrite lstrip_nospace; [apply rev_involutive|].
  rewrite forallb_forall in *. intros x Hx. apply H. now apply in_rev.
Qed.

(** ** The homework split *)

Lemma occurs_at_length (sub s : str) (p : nat) :
  occurs_at sub s p -> p + length sub <= length s.
Proof.
  intros (pre & post & -> & <-). rewrite !length_app. lia.
Qed.

(** The text before the first occurrence of a non-empty [sub] has no
    occurrence of it. *)
Lemma no_occurrence_before_first (sub s : str) (p : nat) :
  sub <> [] -> first_occurrence sub s p -> ~ occurs sub (firstn p s).
Proof.
  intros Hsub [Ho Hmin] (q & pre & post & E & Hq).
  assert (Hlen : q + length sub <= length (firstn p s)).
  { apply occurs_at_length. now exists pre, post. }
  assert (Hq' : occurs_at sub s q).
  { exists pre, (post ++ skipn p s). split; [|exact Hq].
    rewrite <- (firstn_skipn p s) at 1. rewrite E.
    now rewrite <- !app_assoc. }
  apply Hmin in Hq'. rewrite length_firstn in Hlen.
  destruct sub; [congruence|]. simpl in Hlen. lia.
Qed.

Lemma parse_level_6_article (a h : str) :
  article_text_of (parse_level_6_content a h) = a.
Proof.
  unfold parse_level_6_content.
  destruct (negb _);
    destruct (extract_instruction_and_questions _); reflexivity.
Qed.

Lemma parse_level_1_and_3_article (a h : str) :
  article_text_of (parse_level_1_and_3_content a h) = a.
Proof.
  unfold parse_level_1_and_3_content.
  destruct (extract_instruction_and_questions _); reflexivity.
Qed.

(** The article text is the trimmed text before the first "Homework:", or the
    trimmed text when there is none. *)
Lemma article_text_cases (full_text : str) (level : Z) :
  (~ occurs HOMEWORK full_text
   /\ parse_level_content full_text level = (Py.strip full_text, [], [], []))
  \/ (exists p, first_occurrence HOMEWORK full_text p
      /\ article_text_of (parse_level_content full_text level)
         = Py.strip (firstn p full_text)).
Proof.
  unfold parse_level_content.
  destruct full_text as [|c t] eqn:Et.
  - left. split; [|reflexivity]. intros [p H].
    apply occurs_at_nil in H as [_ H]. discriminate.
  - rewrite <- Et. replace (negb (Py.truthy full_text)) with false
      by (now rewrite Et).
    destruct (find_spec HOMEWORK full_text) as [[Hf Hno]|(p & Hf & Hfirst)].
    + left. rewrite Hf. now split.
    + right. exists p. split; [exact Hfirst|]. rewrite Hf.
      destruct (Z.eqb_spec (Z.of_nat p) (-1)); [lia|].
      unfold Py.slice_to. rewrite Nat2Z.id.
      destruct (level =? 6)%Z.
      * apply parse_level_6_article.
      * apply parse_level_1_and_3_article.
Qed.

(** C10: the article text that the segmenter returns never contains the
    literal "Homework:", for every raw text and every level. *)
Theorem article_text_has_no_homework_marker (full_text : str) (level : Z) :
  ~ occurs HOMEWORK (article_text_of (parse_level_content full_text level)).
Proof.
  destruct (article_text_cases full_text level)
    as [[Hno E]|(p & Hfirst & E)]; rewrite E; simpl; intros H.
  - now apply Hno, occurs_strip.
  - apply occurs_strip in H.
    revert H. apply no_occurrence_before_first; [discriminate|exact Hfirst].
Qed.

(** C4: a raw text without the literal "Homework:" is returned trimmed as the
    article text, with an empty instruction, empty questions and an empty
    writing prompt; the empty text gives four empty fields and an empty
    headline. *)
Theorem no_homework_marker_gives_trimmed_text (full_text : str) (level : Z)
    (H : ~ occurs HOMEWORK full_text) :
  parse_level_content full_text level = (Py.strip full_text, [], [], [])
  /\ parse_level_content [] level = ([], [], [], [])
  /\ headline_of [] = [].
Proof.
  repeat split.
  destruct (article_text_cases full_text level)
    as [[_ E]|(p & [Ho _] & _)]; [exact E|].
  exfalso. apply H. now exists p.
Qed.

Lemma no_homework_marker_witness :
  parse_level_content (lit "  Storm hits city  ") 3
  = (Py.strip (lit "  Storm hits city  "), [], [], [])
  /\ parse_level_content [] 3 = ([], [], [], [])
  /\ headline_of [] = [].
Proof.
  apply (no_homework_marker_gives_trimmed_text (lit "  Storm hits city  ") 3).
  apply str_in_false. reflexivity.
Defined.

(** ** Lines *)

Lemma split_nonempty (sep : ascii) (s : str) : Py.split sep s <> [].
Proof.
  destruct s as [|c t]; simpl; [discriminate|].
  destruct (Ascii.eqb c sep); [discriminate|].
  destruct (Py.split sep t); discriminate.
Qed.

Lemma join_cons_cons (sep : str) (x y : str) (l : list str) :
  Py.join sep (x :: y :: l) = x ++ sep ++ Py.join sep (y :: l).
Proof. reflexivity. Qed.

Lemma join_split (sep : ascii) (s : str) :
  Py.join [sep] (Py.split sep s) = s.
Proof.
  induction s as [|c t IH]; [reflexivity|]. simpl.
  destruct (Ascii.eqb_spec c sep) as [->|Hc].
  - destruct (Py.split sep t) as [|l ls] eqn:E;
      [now apply split_nonempty in E|].
    rewrite join_cons_cons, IH. reflexivity.
  - destruct (Py.split sep t) as [|l ls] eqn:E;
      [now apply split_nonempty in E|].
    rewrite <- IH. destruct ls; reflexivity.
Qed.

Lemma join_infix (sep x : str) (l : list str) :
  In x l -> exists a b, Py.join sep l = a ++ x ++ b.
Proof.
  induction l as [|y l IH]; [intros []|].
  intros [->|H].
  - destruct l as [|z l]; [exists [], []; simpl; now rewrite app_nil_r|].
    exists [], (sep ++ Py.join sep (z :: l)). reflexivity.
  - destruct l as [|z l]; [destruct H|].
    destruct (IH H) as (a & b & E).
    exists (y ++ sep ++ a), b. rewrite join_cons_cons, E.
    now rewrite <- !app_assoc.
Qed.

(** A marker found in a line of a block is found in the block. *)
Lemma contains_ci_line (marker block line : str) :
  In line (Py.split nl block) -> contains_ci marker line ->
  contains_ci marker block.
Proof.
  intros Hin H. destruct (join_infix [nl] line _ Hin) as (a & b & E).
  rewrite join_split in E. unfold contains_ci, Py.lower in *.
  rewrite E, !map_app. now apply occurs_infix.
Qed.

Lemma first_line_with_some (marker : str) (lines : list str) (i0 i : nat) :
  first_line_with marker i0 lines = Some i ->
  exists j line,
    i = i0 + j /\ nth_error lines j = Some line
    /\ contains_ci marker line
    /\ forall j' l, j' < j -> nth_error lines j' = Some l ->
                    ~ contains_ci marker l.
Proof.
  revert i0; induction lines as [|line rest IH]; intros i0 H; [discriminate|].
  simpl in H.
  destruct (Py.str_in (Py.lower marker) (Py.lower line)) eqn:E.
  - injection H as <-. exists 0, line. repeat split.
    + lia.
    + now apply str_in_occurs.
    + intros; lia.
  - destruct (IH _ H) as (j & l & -> & Hn & Hc & Hmin).
    exists (S j), l. repeat split; [lia|exact Hn|exact Hc|].
    intros [|j'] l' Hlt Hn'.
    + injection Hn' as <-. now apply str_in_false.
    + apply (Hmin j'); [lia|exact Hn'].
Qed.

Lemma first_line_with_none (marker : str) (lines : list str) (i0 : nat) :
  first_line_with marker i0 lines = None ->
  forall l, In l lines -> ~ contains_ci marker l.
Proof.
  revert i0; induction lines as [|line rest IH]; intros i0 H l; [intros []|].
  simpl in H.
  destruct (Py.str_in (Py.lower marker) (Py.lower line)) eqn:E;
    [discriminate|].
  intros [<-|Hin]; [now apply str_in_false|]. now apply (IH _ H).
Qed.

(** The selection made by the loop over the markers, for any list of markers:
    the first marker that some line contains and the first such line, or
    nothing when no line contains any marker. *)
Lemma marker_loop_selects (markers : list str) (block : str) :
  let lines := Py.split nl block in
  (exists k marker i line,
      nth_error markers k = Some marker
      /\ (forall k' m' l, k' < k -> nth_error markers k' = Some m' ->
                          In l lines -> ~ contains_ci m' l)
      /\ nth_error lines i = Some line
      /\ contains_ci marker line
      /\ (forall j l, j < i -> nth_error lines j = Some l ->
                      ~ contains_ci marker l)
      /\ marker_loop markers block
         = (Py.strip line, Py.strip (Py.join [nl] (skipn (i + 1) lines))))
  \/ ((forall marker l, In marker markers -> In l lines ->
                        ~ contains_ci marker l)
      /\ marker_loop markers block = ([], block)).
Proof.
  intros lines. induction markers as [|m ms IH].
  - right. split; [intros ? ? []|reflexivity].
  - destruct (first_line_with m 0 lines) as [i|] eqn:Efirst.
    + left. destruct (first_line_with_some _ _ _ _ Efirst)
        as (j & line & -> & Hn & Hc & Hmin).
      exists 0, m, j, line. repeat split; try assumption.
      * intros; lia.
      * assert (Hb : contains_ci m block).
        { apply (contains_ci_line m block line); [|exact Hc].
          eapply nth_error_In, Hn. }
        apply str_in_occurs in Hb. simpl. rewrite find_str_in, Hb. simpl.
        fold lines. rewrite Efirst. simpl.
        now rewrite (nth_error_nth _ _ _ Hn).
    + assert (Hnone := first_line_with_none _ _ _ Efirst).
      assert (E : marker_loop (m :: ms) block = marker_loop ms block).
      { simpl. fold lines. rewrite Efirst. now destruct (negb _). }
      rewrite E.
      destruct IH as [(k & mk & i & line & Hk & Hprev & Hn & Hc & Hmin & Hr)
                     |[Hno Hr]].
      * left. exists (S k), mk, i, line. repeat split; try assumption.
        intros [|k'] m' l Hlt Hm' Hin.
        -- injection Hm' as <-. now apply Hnone.
        -- apply (Hprev k'); [lia|exact Hm'|exact Hin].
      * right. split; [|exact Hr].
        intros marker l [<-|Hm] Hin; [now apply Hnone|now apply Hno].
Qed.

(** C3: the instruction is the first line containing the first marker, in
    list order, that some line of the block contains (letter case ignored),
    trimmed, and the questions are the trimmed join of the lines after it;
    when no line contains any marker the instruction is empty and the
    questions are the block unchanged. *)
Theorem extract_instruction_and_questions_selects (block : str) :
  let lines := Py.split nl block in
  (exists k marker i line,
      nth_error instruction_markers k = Some marker
      /\ (forall k' m' l, k' < k -> nth_error instruction_markers k' = Some m' ->
                          In l lines -> ~ contains_ci m' l)
      /\ nth_error lines i = Some line
      /\ contains_ci marker line
      /\ (forall j l, j < i -> nth_error lines j = Some l ->
                      ~ contains_ci marker l)
      /\ extract_instruction_and_questions block
         = (Py.strip line, Py.strip (Py.join [nl] (skipn (i + 1) lines))))
  \/ ((forall marker l, In marker instruction_markers -> In l lines ->
                        ~ contains_ci marker l)
      /\ extract_instruction_and_questions block = ([], block)).
Proof. exact (marker_loop_selects instruction_markers block). Qed.

(** ** The writing prompt of level 6 *)

(** The loop over the writing-prompt markers stops at the first marker of the
    list that the block contains, at its first position there. *)
Lemma find_writing_index_priority (markers : list str) (block : str)
    (k : nat) (marker : str) (p : nat) :
  nth_error markers k = Some marker ->
  (forall k' m', k' < k -> nth_error markers k' = Some m' ->
                 ~ contains_ci m' block) ->
  first_occurrence (Py.lower marker) (Py.lower block) p ->
  find_writing_index markers block = Z.of_nat p.
Proof.
  revert k; induction markers as [|m ms IH]; intros k Hk Hprev Hfirst.
  - destruct k; discriminate.
  - destruct k as [|k]; simpl.
    + injection Hk as ->. apply find_first_occurrence in Hfirst.
      rewrite Hfirst. destruct (Z.eqb_spec (Z.of_nat p) (-1)); [lia|].
      reflexivity.
    + assert (Hm : ~ contains_ci m block) by (apply (Hprev 0); [lia|easy]).
      apply find_absent in Hm. rewrite Hm. simpl.
      apply (IH k); [exact Hk| |exact Hfirst].
      intros k' m' Hlt Hm'. apply (Hprev (S k')); [lia|exact Hm'].
Qed.

Example two_prompts_parse :
  Py.find (Py.lower (lit "Academic Writing")) (Py.lower two_prompts) = 8%Z
  /\ parse_level_6_content (lit "Body") two_prompts
     = (lit "Body", [],
        Py.join [nl] [lit "1. Why?"; lit "Academic Writing: an essay"],
        lit "Free Writing: a diary").
Proof. split; reflexivity. Qed.

(** *** Over all of Unicode *)

Lemma wide_startswith_app (p post : Wide.wstr) :
  Wide.startswith p (p ++ post) = true.
Proof.
  induction p as [|a p IH]; simpl; [destruct post; reflexivity|].
  now rewrite N.eqb_refl, IH.
Qed.

Lemma wide_startswith_true (p s : Wide.wstr) :
  Wide.startswith p s = true -> exists post, s = p ++ post.
Proof.
  revert s; induction p as [|a p IH]; intros s H.
  - now exists s.
  - destruct s as [|b s]; simpl in H; [discriminate|].
    apply andb_true_iff in H as [Hab H].
    apply N.eqb_eq in Hab; subst b.
    destruct (IH _ H) as [post ->]. now exists post.
Qed.

Lemma wide_occurs_at_0 (sub s : Wide.wstr) :
  Wide.occurs_at sub s 0 <-> Wide.startswith sub s = true.
Proof.
  split.
  - intros (pre & post & -> & Hl). destruct pre; [|discriminate].
    simpl. apply wide_startswith_app.
  - intros H. apply wide_startswith_true in H as [post ->].
    now exists [], post.
Qed.

Lemma wide_occurs_at_S (sub : Wide.wstr) (c : N) (s : Wide.wstr) (p : nat) :
  Wide.occurs_at sub (c :: s) (S p) <-> Wide.occurs_at sub s p.
Proof.
  split.
  - intros (pre & post & E & Hl). destruct pre as [|a pre]; [discriminate|].
    simpl in E, Hl. injection E as -> ->. injection Hl as Hl.
    now exists pre, post.
  - intros (pre & post & -> & Hl). exists (c :: pre), post.
    simpl. now rewrite Hl.
Qed.

Lemma wide_occurs_at_nil (sub : Wide.wstr) (p : nat) :
  Wide.occurs_at sub [] p -> p = 0 /\ sub = [].
Proof.
  intros (pre & post & E & Hl).
  symmetry in E. apply app_eq_nil in E as [-> E].
  apply app_eq_nil in E as [-> _]. now subst p.
Qed.

(** What [find] returns over code points: -1 when there is no occurrence,
    the first position of an occurrence otherwise. *)
Lemma wide_find_spec (sub s : Wide.wstr) :
  (Wide.find sub s = (-1)%Z /\ ~ Wide.occurs sub s)
  \/ (exists p, Wide.find sub s = Z.of_nat p
                /\ Wide.first_occurrence sub s p).
Proof.
  induction s as [|c s IH].
  - simpl. destruct (Wide.startswith sub []) eqn:E.
    + right. exists 0. split; [reflexivity|].
      split; [now apply wide_occurs_at_0|]. intros; lia.
    + left. split; [reflexivity|]. intros [p H].
      apply wide_occurs_at_nil in H as [-> ->]. discriminate.
  - simpl. destruct (Wide.startswith sub (c :: s)) eqn:E.
    + right. exists 0. split; [reflexivity|].
      split; [now apply wide_occurs_at_0|]. intros; lia.
    + destruct IH as [[Hf Hno]|(p & Hf & Ho & Hmin)].
      * left. rewrite Hf. split; [reflexivity|]. intros [[|q] H].
        -- apply wide_occurs_at_0 in H. congruence.
        -- apply wide_occurs_at_S in H. apply Hno. now exists q.
      * right. exists (S p). rewrite Hf.
        destruct (Z.eqb_spec (Z.of_nat p) (-1)); [lia|].
        split; [lia|]. split; [now apply wide_occurs_at_S|].
        intros [|q] H.
        -- apply wide_occurs_at_0 in H. congruence.
        -- apply wide_occurs_at_S in H. apply Hmin in H. lia.
Qed.

Lemma wide_find_absent (sub s : Wide.wstr) :
  Wide.find sub s = (-1)%Z <-> ~ Wide.occurs sub s.
Proof.
  destruct (wide_find_spec sub s) as [[Hf Hno]|(p & Hf & Ho & _)].
  - tauto.
  - split; [lia|]. intros H. exfalso. apply H. now exists p.
Qed.

Lemma wide_find_first_occurrence (sub s : Wide.wstr) (p : nat) :
  Wide.find sub s = Z.of_nat p <-> Wide.first_occurrence sub s p.
Proof.
  destruct (wide_find_spec sub s) as [[Hf Hno]|(q & Hf & Ho & Hmin)].
  - split; [lia|]. intros [H _]. exfalso. apply Hno. now exists p.
  - split.
    + intros H. assert (p = q) by lia. subst q. now split.
    + intros [H1 H2]. apply Hmin in H1. apply H2 in Ho. lia.
Qed.

(** The loop over the writing-prompt markers, for any [lower]: it stops at
    the first marker of the list whose lower case occurs in the lower case of
    the block, with the first position of it there. *)
Lemma wide_find_writing_index_priority (lower : Wide.wstr -> Wide.wstr)
    (markers : list Wide.wstr) (block : Wide.wstr)
    (k : nat) (marker : Wide.wstr) (p : nat) :
  nth_error markers k = Some marker ->
  (forall k' m', k' < k -> nth_error markers k' = Some m' ->
                 ~ Wide.occurs (lower m') (lower block)) ->
  Wide.first_occurrence (lower marker) (lower block) p ->
  Wide.find_writing_index lower markers block = Z.of_nat p.
Proof.
  revert k; induction markers as [|m ms IH]; intros k Hk Hprev Hfirst.
  - destruct k; discriminate.
  - destruct k as [|k]; simpl.
    + injection Hk as ->. apply wide_find_first_occurrence in Hfirst.
      rewrite Hfirst. destruct (Z.eqb_spec (Z.of_nat p) (-1)); [lia|].
      reflexivity.
    + assert (Hm : ~ Wide.occurs (lower m) (lower block))
        by (apply (Hprev 0); [lia|easy]).
      apply wide_find_absent in Hm. rewrite Hm. simpl.
      apply (IH k); [exact Hk| |exact Hfirst].
      intros k' m' Hlt Hm'. apply (Hprev (S k')); [lia|exact Hm'].
Qed.

(** C1 (as amended): at level 6, when lower-casing acts on the homework block
    and on the markers character by character (by some map [fold] of the
    code points, so that a position in the lower-cased block is a position in
    the block), the block is split at the first occurrence, letter case
    ignored, of the first marker of the priority list that occurs anywhere
    in the block, whatever the positions of the markers after it in the
    list; the writing prompt is the trimmed block from there on, and the
    instruction and the questions are extracted from the TRIMMED text before
    it. *)
Theorem level_6_split_by_priority
    (lower : Wide.wstr -> Wide.wstr) (fold : N -> N)
    (article block : Wide.wstr) (k : nat) (marker : Wide.wstr) (p : nat)
    (Hblock : lower block = map fold block)
    (Hmarkers : Forall (fun m => lower m = map fold m)
                       Wide.writing_prompt_markers)
    (Hmarker : nth_error Wide.writing_prompt_markers k = Some marker)
    (Hhigher : forall k' m', k' < k ->
                 nth_error Wide.writing_prompt_markers k' = Some m' ->
                 ~ Wide.occurs (map fold m') (map fold block))
    (Hfirst : Wide.first_occurrence (map fold marker) (map fold block) p) :
  Wide.parse_level_6_content lower article block
  = (article,
     fst (Wide.extract_instruction_and_questions lower
            (Wide.strip (firstn p block))),
     snd (Wide.extract_instruction_and_questions lower
            (Wide.strip (firstn p block))),
     Wide.strip (skipn p block)).
Proof.
  rewrite Forall_forall in Hmarkers.
  unfold Wide.parse_level_6_content.
  rewrite (wide_find_writing_index_priority lower _ block k marker p Hmarker).
  - destruct (Z.eqb_spec (Z.of_nat p) (-1)); [lia|]. simpl.
    unfold Wide.slice_to, Wide.slice_from. rewrite Nat2Z.id.
    now destruct (Wide.extract_instruction_and_questions lower _).
  - intros k' m' Hlt Hm'. rewrite Hblock.
    rewrite (Hmarkers m') by (eapply nth_error_In, Hm').
    now apply (Hhigher k').
  - rewrite Hblock, (Hmarkers marker) by (eapply nth_error_In, Hmarker).
    exact Hfirst.
Qed.

(** On [two_prompts], "Academic Writing" is at position 8 and "Free Writing",
    first in the list, at position 35: the split is at 35. *)
Lemma level_6_split_by_priority_witness :
  Wide.parse_level_6_content Wide.lower_with_dotted_I
    (Wide.wlit "Body") Wide.two_prompts
  = (Wide.wlit "Body",
     fst (Wide.extract_instruction_and_questions Wide.lower_with_dotted_I
            (Wide.strip (firstn 35 Wide.two_prompts))),
     snd (Wide.extract_instruction_and_questions Wide.lower_with_dotted_I
            (Wide.strip (firstn 35 Wide.two_prompts))),
     Wide.strip (skipn 35 Wide.two_prompts)).
Proof.
  apply (level_6_split_by_priority Wide.lower_with_dotted_I
           Wide.lower_code_point (Wide.wlit "Body") Wide.two_prompts
           0 (Wide.wlit "Free Writing") 35).
  - reflexivity.
  - repeat constructor.
  - reflexivity.
  - intros k' m' Hlt. lia.
  - apply wide_find_first_occurrence. reflexivity.
Defined.

Example wide_two_prompts_parse :
  Wide.find (map Wide.lower_code_point (Wide.wlit "Academic Writing"))
            (map Wide.lower_code_point Wide.two_prompts) = 8%Z
  /\ Wide.parse_level_6_content Wide.lower_with_dotted_I
       (Wide.wlit "Body") Wide.two_prompts
     = (Wide.wlit "Body", [],
        Wide.join [Wide.nl]
          [Wide.wlit "1. Why?"; Wide.wlit "Academic Writing: an essay"],
        Wide.wlit "Free Writing: a diary").
Proof. split; reflexivity. Qed.

(** The capital I with a dot above: the index found in the lower-cased block
    (40) is not the position of the marker in the block (38). *)
Example dotted_two_prompts_parse :
  Wide.find (Wide.wlit "Free Writing") Wide.dotted_two_prompts = 38%Z
  /\ Wide.find_writing_index Wide.lower_with_dotted_I
       Wide.writing_prompt_markers Wide.dotted_two_prompts = 40%Z
  /\ Wide.parse_level_6_content Wide.lower_with_dotted_I
       (Wide.wlit "Body") Wide.dotted_two_prompts
     = (Wide.wlit "Body", [],
        [304%N; 304%N; 32%N]
        ++ Wide.join [Wide.nl]
             [Wide.wlit "1. Why?"; Wide.wlit "Academic Writing: an essay";
              Wide.wlit "Fr"],
        Wide.wlit "ee Writing: a diary").
Proof. repeat split; reflexivity. Qed.

(** C1 as stated fails twice, each time on a block with two markers.  On
    [two_prompts] the selected marker is at position 35 and the text before
    it ends with a newline: the questions are not those extracted from that
    text, they come out trimmed.  On [dotted_two_prompts] the selected marker
    is at position 38 and the writing prompt is not the trimmed block from
    there on: it starts two characters later. *)
Lemma level_6_claimed_split_counterexample :
  (Wide.first_occurrence
     (map Wide.lower_code_point (Wide.wlit "Free Writing"))
     (map Wide.lower_code_point Wide.two_prompts) 35
   /\ Wide.occurs (map Wide.lower_code_point (Wide.wlit "Academic Writing"))
                  (map Wide.lower_code_point Wide.two_prompts)
   /\ snd (fst (Wide.parse_level_6_content Wide.lower_with_dotted_I
                  (Wide.wlit "Body") Wide.two_prompts))
      <> snd (Wide.extract_instruction_and_questions
                Wide.lower_with_dotted_I (firstn 35 Wide.two_prompts)))
  /\ (Wide.first_occurrence
        (map Wide.lower_code_point (Wide.wlit "Free Writing"))
        (map Wide.lower_code_point Wide.dotted_two_prompts) 38
      /\ Wide.occurs
           (map Wide.lower_code_point (Wide.wlit "Academic Writing"))
           (map Wide.lower_code_point Wide.dotted_two_prompts)
      /\ snd (Wide.parse_level_6_content Wide.lower_with_dotted_I
                (Wide.wlit "Body") Wide.dotted_two_prompts)
         <> Wide.strip (skipn 38 Wide.dotted_two_prompts)).
Proof.
  split; (split; [apply wide_find_first_occurrence; reflexivity|]);
    (split; [|vm_compute; discriminate]).
  - exists 8. apply wide_find_first_occurrence. reflexivity.
  - exists 11. apply wide_find_first_occurrence. reflexivity.
Qed.

(** ** The headline *)

Lemma paragraph_texts_head (paragraphs : list str) (p : str) (more : list str) :
  paragraph_texts paragraphs = p :: more ->
  exists c t, p = c :: t /\ Py.isspace c = false.
Proof.
  induction paragraphs as [|q qs IH]; simpl; [discriminate|].
  destruct (Py.strip q) as [|c t] eqn:E; simpl; [exact IH|].
  intros H. injection H as <- _. exists c, t. split; [reflexivity|].
  now apply strip_head in E.
Qed.

Lemma join_head (sep : str) (c : ascii) (t : str) (more : list str) :
  exists rest, Py.join sep ((c :: t) :: more) = c :: rest.
Proof. destruct more; simpl; eauto. Qed.

Lemma split_head (sep c : ascii) (t : str) :
  Ascii.eqb c sep = false ->
  exists l ls, Py.split sep (c :: t) = (c :: l) :: ls.
Proof.
  intros H. simpl. rewrite H.
  destruct (Py.split sep t) as [|l ls] eqn:E;
    [now apply split_nonempty in E|eauto].
Qed.

Lemma not_space_not_nl (c : ascii) :
  Py.isspace c = false -> Ascii.eqb c nl = false.
Proof.
  intros H. destruct (Ascii.eqb_spec c nl) as [->|]; [discriminate|reflexivity].
Qed.

(** The text of a document is empty or starts with a character that is not
    white space. *)
Lemma extract_text_head (doc : docx) :
  extract_text_from_docx doc = []
  \/ exists c rest, extract_text_from_docx doc = c :: rest
                    /\ Py.isspace c = false.
Proof.
  destruct doc as [paragraphs|]; [|now left]. simpl.
  destruct (paragraph_texts paragraphs) as [|p more] eqn:E; [now left|].
  destruct (paragraph_texts_head _ _ _ E) as (c & t & -> & Hc).
  destruct (join_head [nl] c t more) as [rest Hj].
  right. now exists c, rest.
Qed.

Lemma headline_of_first_nonblank (text : str) :
  (text = [] \/ exists c rest, text = c :: rest /\ Py.isspace c = false) ->
  headline_of text = first_nonblank_line text.
Proof.
  intros [->|(c & rest & -> & Hc)]; [reflexivity|].
  unfold headline_of, first_nonblank_line.
  destruct (split_head nl c rest (not_space_not_nl c Hc)) as (l & ls & E).
  rewrite E. simpl. now rewrite Hc.
Qed.

(** C2: the headline stored for a processed file is the first line of the
    document's text that is not blank, trimmed, and the empty string when the
    text has no such line; it is a function of the text alone. *)
Theorem headline_is_first_nonblank_line (name : str) (doc : docx) :
  let text := extract_text_from_docx doc in
  headline_of text = first_nonblank_line text
  /\ match read_file (name, doc) with
     | Some (_, _, entry) => headline entry = first_nonblank_line text
     | None => True
     end.
Proof.
  intros text.
  assert (H : headline_of text = first_nonblank_line text)
    by apply headline_of_first_nonblank, extract_text_head.
  split; [exact H|].
  unfold read_file. fold text.
  destruct (negb (Py.endswith DOCX name)); [exact I|].
  destruct (level_match name) as [level|]; [|exact I].
  destruct (negb (Py.truthy text)); [exact I|].
  destruct (parse_level_content text level) as [[[a i] q] w]. exact H.
Qed.

(** ** Slugs *)

Lemma slug_class_lower (c : ascii) :
  slug_class c = true ->
  slug_char (Py.lower_char c) || Py.isspace (Py.lower_char c) = true.
Proof. each_char_under c. Qed.

Lemma slug_char_class (c : ascii) : slug_char c = true -> slug_class c = true.
Proof. each_char_under c. Qed.

Lemma slug_char_lower (c : ascii) : slug_char c = true -> Py.lower_char c = c.
Proof. each_char_under c. Qed.

Lemma slug_char_nospace (c : ascii) :
  slug_char c = true -> negb (Py.isspace c) = true.
Proof. each_char_under c. Qed.

Lemma forallb_impl {A} (f g : A -> bool) (l : list A) :
  (forall x, f x = true -> g x = true) ->
  forallb f l = true -> forallb g l = true.
Proof.
  intros Hfg. rewrite !forallb_forall. intros H x Hx. now apply Hfg, H.
Qed.

Lemma forallb_strip (f : ascii -> bool) (s : str) :
  forallb f s = true -> forallb f (Py.strip s) = true.
Proof.
  destruct (strip_decomp s) as (a & b & E & _). rewrite E at 1.
  rewrite !forallb_app, !andb_true_iff. tauto.
Qed.

Lemma sub_whitespace_runs_chars (in_run : bool) (s : str) :
  forallb (fun c => slug_char c || Py.isspace c) s = true ->
  forallb slug_char (sub_whitespace_runs in_run s) = true.
Proof.
  revert in_run; induction s as [|c s IH]; intros in_run H; [reflexivity|].
  simpl in H. apply andb_true_iff in H as [Hc Hs]. simpl.
  destruct (Py.isspace c) eqn:E.
  - destruct in_run; simpl; now apply IH.
  - simpl. rewrite orb_false_r in Hc. rewrite Hc. now apply IH.
Qed.

Lemma sub_whitespace_runs_nospace (s : str) :
  forallb (fun c => negb (Py.isspace c)) s = true ->
  sub_whitespace_runs false s = s.
Proof.
  induction s as [|c s IH]; [reflexivity|]. simpl.
  destruct (Py.isspace c); [discriminate|]. simpl.
  intros H. now rewrite IH.
Qed.

Lemma filter_all {A} (f : A -> bool) (l : list A) :
  forallb f l = true -> filter f l = l.
Proof.
  induction l as [|x l IH]; [reflexivity|]. simpl.
  destruct (f x); [|discriminate]. simpl. intros H. now rewrite IH.
Qed.

Lemma lower_fixed (s : str) : forallb slug_char s = true -> Py.lower s = s.
Proof.
  induction s as [|c s IH]; [reflexivity|]. simpl.
  intros H. apply andb_true_iff in H as [Hc Hs].
  now rewrite (slug_char_lower c Hc), IH.
Qed.

(** A slug is made of the characters [a-z0-9-] only. *)
Lemma slugify_chars (x : str) : forallb slug_char (slugify x) = true.
Proof.
  unfold slugify. apply sub_whitespace_runs_chars, forallb_strip.
  unfold Py.lower. rewrite forallb_forall. intros c Hc.
  apply in_map_iff in Hc as (d & <- & Hd).
  apply filter_In in Hd as [_ Hd]. now apply slug_class_lower.
Qed.

(** A string of slug characters is its own slug. *)
Lemma slugify_fixed (s : str) : forallb slug_char s = true -> slugify s = s.
Proof.
  intros H. unfold slugify.
  rewrite (filter_all slug_class s) by (revert H; apply forallb_impl, slug_char_class).
  rewrite (lower_fixed s H).
  assert (Hn : forallb (fun c => negb (Py.isspace c)) s = true)
    by (revert H; apply forallb_impl, slug_char_nospace).
  rewrite (strip_nospace s Hn). now apply sub_whitespace_runs_nospace.
Qed.

(** C6: slugify is idempotent. *)
Theorem slugify_idempotent (x : str) : slugify (slugify x) = slugify x.
Proof. apply slugify_fixed, slugify_chars. Qed.

(** ** The filename normalizer *)

Lemma startswith_docx_app (s : str) :
  Py.startswith DOCX (s ++ DOCX) = true ->
  s = [] \/ Py.startswith DOCX s = true.
Proof.
  destruct s as [|c0 [|c1 [|c2 [|c3 [|c4 s]]]]]; intros H;
    [now left|exfalso..|right; exact H];
    cbn in H; rewrite ?andb_false_r in H; discriminate.
Qed.

(** The extension at the end of a name that has it nowhere else is removed,
    and nothing else. *)
Lemma replace_trailing_extension (stem : str) :
  ~ occurs DOCX stem -> Py.replace DOCX [] (stem ++ DOCX) = stem.
Proof.
  unfold Py.replace. induction stem as [|c t IH]; intros H; [reflexivity|].
  change ((c :: t) ++ DOCX) with (c :: (t ++ DOCX)).
  cbn [Py.replace_from].
  destruct (Py.startswith DOCX (c :: t ++ DOCX)) eqn:E.
  - exfalso. apply H.
    destruct (startswith_docx_app (c :: t) E) as [?|E']; [discriminate|].
    exists 0. now apply occurs_at_0.
  - rewrite IH; [reflexivity|].
    intros Ht. apply H. apply (occurs_infix DOCX [c] t []) in Ht.
    now rewrite app_nil_r in Ht.
Qed.



Example storm_slug : parse_filename (storm_name ++ DOCX) = lit "storm-hits-city".
Proof. reflexivity. Qed.

Example lower_case_suffix_slugs :
  parse_filename (lit "Lvl 3 Storm _ breaking news english.docx")
  = lit "storm-breaking-news-english"
  /\ Claimed.slug (lit "Lvl 3 Storm _ breaking news english.docx")
     = lit "storm".
Proof. split; reflexivity. Qed.

Example inner_extension_slugs :
  parse_filename (lit "Lvl 3 Report.docx final.docx") = lit "report-final"
  /\ Claimed.slug (lit "Lvl 3 Report.docx final.docx")
     = lit "reportdocx-final".
Proof. split; reflexivity. Qed.


(** ** Dictionaries *)

Lemma str_eqb_spec (a b : str) : reflect (a = b) (Py.str_eqb a b).
Proof.
  revert b; induction a as [|x a IH]; intros [|y b]; simpl;
    try (constructor; congruence).
  destruct (Ascii.eqb_spec x y) as [->|Hxy]; simpl.
  - destruct (IH b) as [->|Hab]; constructor; congruence.
  - constructor; congruence.
Qed.

Lemma str_eqb_refl (a : str) : Py.str_eqb a a = true.
Proof. now destruct (str_eqb_spec a a). Qed.

Lemma str_eqb_sym (a b : str) : Py.str_eqb a b = Py.str_eqb b a.
Proof.
  destruct (str_eqb_spec a b), (str_eqb_spec b a); congruence.
Qed.

Lemma existsb_str_eqb (x : str) (l : list str) :
  existsb (Py.str_eqb x) l = true <-> In x l.
Proof.
  rewrite existsb_exists. split.
  - intros (y & Hy & E). now destruct (str_eqb_spec x y) as [->|].
  - intros H. exists x. split; [exact H|apply str_eqb_refl].
Qed.

Section DictFacts.
Context {V : Type}.
Implicit Types (d : dict V) (k : str) (v : V).

Lemma dict_get_set_same d k v : dict_get (dict_set d k v) k = Some v.
Proof.
  induction d as [|[k' v'] d IH]; simpl.
  - now rewrite str_eqb_refl.
  - destruct (Py.str_eqb k' k) eqn:E; simpl; now rewrite E.
Qed.

Lemma dict_get_set_other d k k' v :
  k <> k' -> dict_get (dict_set d k v) k' = dict_get d k'.
Proof.
  intros Hk. induction d as [|[k0 v0] d IH]; simpl.
  - now destruct (str_eqb_spec k k').
  - destruct (str_eqb_spec k0 k) as [->|]; simpl.
    + now destruct (str_eqb_spec k k').
    + now rewrite IH.
Qed.

Lemma dict_set_keys d k v :
  map fst (dict_set d k v)
  = if existsb (Py.str_eqb k) (map fst d) then map fst d
    else map fst d ++ [k].
Proof.
  induction d as [|[k0 v0] d IH]; simpl; [reflexivity|].
  rewrite (str_eqb_sym k k0).
  destruct (Py.str_eqb k0 k); simpl; [reflexivity|].
  rewrite IH. now destruct (existsb _ _).
Qed.

Lemma dict_get_in d k v :
  NoDup (map fst d) -> In (k, v) d -> dict_get d k = Some v.
Proof.
  induction d as [|[k0 v0] d IH]; simpl; [intros _ []|].
  intros Hnd [E|Hin].
  - injection E as -> ->. now rewrite str_eqb_refl.
  - inversion Hnd as [|? ? Hk0 Hnd']; subst.
    destruct (str_eqb_spec k0 k) as [->|]; [|now apply IH].
    exfalso. apply Hk0. now apply (in_map fst) in Hin.
Qed.
End DictFacts.

Lemma store_keys (articles : dict (dict level_entry)) (slug key : str)
    (entry : level_entry) :
  map fst (store articles slug key entry)
  = if existsb (Py.str_eqb slug) (map fst articles) then map fst articles
    else map fst articles ++ [slug].
Proof. apply dict_set_keys. Qed.

Lemma lookup_store (articles : dict (dict level_entry)) (s k s' k' : str)
    (entry : level_entry) :
  lookup (store articles s k entry) s' k'
  = if Py.str_eqb s s' && Py.str_eqb k k' then Some entry
    else lookup articles s' k'.
Proof.
  unfold lookup, store.
  destruct (str_eqb_spec s s') as [<-|Hs]; simpl.
  - rewrite dict_get_set_same.
    destruct (str_eqb_spec k k') as [<-|Hk].
    + apply dict_get_set_same.
    + rewrite dict_get_set_other by exact Hk.
      now destruct (dict_get articles s).
  - now rewrite dict_get_set_other.
Qed.

(** ** Slugs in the order of their first encounter *)

Lemma first_encounters_ext (seen seen' l : list str) :
  (forall x, In x seen <-> In x seen') ->
  first_encounters seen l = first_encounters seen' l.
Proof.
  revert seen seen'; induction l as [|x l IH]; intros seen seen' H;
    [reflexivity|]. simpl.
  assert (E : existsb (Py.str_eqb x) seen = existsb (Py.str_eqb x) seen').
  { apply eq_true_iff_eq. rewrite !existsb_str_eqb. apply H. }
  rewrite E. destruct (existsb _ seen'); [now apply IH|].
  f_equal. apply IH. intros y. simpl. rewrite H. tauto.
Qed.

Lemma first_encounters_in (seen l : list str) (x : str) :
  In x (first_encounters seen l) <-> In x l /\ ~ In x seen.
Proof.
  revert seen; induction l as [|y l IH]; intros seen; simpl; [tauto|].
  destruct (existsb (Py.str_eqb y) seen) eqn:E.
  - apply existsb_str_eqb in E. rewrite IH. split; [tauto|].
    intros [[->|H] Hn]; tauto.
  - assert (Hy : ~ In y seen).
    { intros H. apply existsb_str_eqb in H. congruence. }
    simpl. rewrite IH. simpl. split.
    + intros [->|[H Hn]]; tauto.
    + intros [[->|H] Hn]; [now left|].
      destruct (str_eqb_spec y x) as [->|Hyx]; [now left|]. right. tauto.
Qed.

Lemma first_encounters_nodup (seen l : list str) :
  NoDup (first_encounters seen l).
Proof.
  revert seen; induction l as [|y l IH]; intros seen; simpl; [constructor|].
  destruct (existsb (Py.str_eqb y) seen); [apply IH|].
  constructor; [|apply IH].
  rewrite first_encounters_in. simpl. tauto.
Qed.

(** ** Decimal numerals *)

Lemma lit_inj (s t : string) : lit s = lit t -> s = t.
Proof.
  unfold lit. intros H.
  rewrite <- (string_of_list_ascii_of_string s),
          <- (string_of_list_ascii_of_string t).
  now rewrite H.
Qed.

Lemma string_of_uint_inj (d e : Decimal.uint) :
  NilEmpty.string_of_uint d = NilEmpty.string_of_uint e -> d = e.
Proof.
  intros H. assert (E : Some d = Some e)
    by (rewrite <- !NilEmpty.usu; now rewrite H).
  now injection E.
Qed.

Lemma decimal_inj (n m : Z) :
  (0 <= n)%Z -> (0 <= m)%Z -> decimal n = decimal m -> n = m.
Proof.
  unfold decimal. intros Hn Hm H.
  apply lit_inj, string_of_uint_inj, DecimalN.Unsigned.to_uint_inj in H.
  lia.
Qed.

Lemma zeros_before_value (k : nat) (d : Decimal.uint) :
  N.of_uint (zeros_before k d) = N.of_uint d.
Proof. induction k as [|k IH]; [reflexivity|exact IH]. Qed.

Lemma zeros_before_lit (k : nat) (d : Decimal.uint) :
  lit (NilEmpty.string_of_uint (zeros_before k d))
  = repeat "0"%char k ++ lit (NilEmpty.string_of_uint d).
Proof.
  unfold lit. induction k as [|k IH]; [reflexivity|]. simpl.
  f_equal. exact IH.
Qed.

Lemma zero_pad_inj (w : nat) (n m : Z) :
  (0 <= n)%Z -> (0 <= m)%Z ->
  zero_pad w (decimal n) = zero_pad w (decimal m) -> n = m.
Proof.
  unfold zero_pad, decimal. intros Hn Hm H.
  rewrite <- !zeros_before_lit in H.
  apply lit_inj, string_of_uint_inj in H.
  apply (f_equal N.of_uint) in H.
  rewrite !zeros_before_value, !DecimalN.Unsigned.of_to in H. lia.
Qed.

Lemma format_03d_nonneg (n : Z) :
  (0 <= n)%Z -> format_03d n = zero_pad 3 (decimal n).
Proof.
  intros H. unfold format_03d. destruct (Z.ltb_spec n 0); [lia|reflexivity].
Qed.

Lemma level_key_eqb (l l' : Z) :
  (0 <= l)%Z -> (0 <= l')%Z ->
  Py.str_eqb (level_key l) (level_key l') = (l =? l')%Z.
Proof.
  intros Hl Hl'. unfold level_key, str_of_int.
  destruct (Z.ltb_spec l 0); [lia|]. destruct (Z.ltb_spec l' 0); [lia|].
  destruct (str_eqb_spec (lit "level_" ++ decimal l) (lit "level_" ++ decimal l'))
    as [E|E]; destruct (Z.eqb_spec l l') as [E'|E']; try reflexivity.
  - apply app_inv_head in E. now apply decimal_inj in E.
  - now subst.
Qed.

Lemma fold_digits_nonneg (ds : str) (acc : Z) :
  forallb Py.isdigit ds = true -> (0 <= acc)%Z ->
  (0 <= fold_left (fun acc c =>
                     (10 * acc + (Z.of_nat (nat_of_ascii c) - 48))%Z) ds acc)%Z.
Proof.
  revert acc; induction ds as [|c ds IH]; intros acc H Hacc; [exact Hacc|].
  cbn [forallb] in H. apply andb_true_iff in H as [Hc Hds].
  cbn [fold_left]. apply (IH _ Hds).
  unfold Py.isdigit in Hc. apply andb_true_iff in Hc as [Hc _].
  apply Nat.leb_le in Hc. lia.
Qed.

Lemma take_while_all (f : ascii -> bool) (s : str) :
  forallb f (take_while f s) = true.
Proof.
  induction s as [|c s IH]; [reflexivity|]. simpl.
  destruct (f c) eqn:E; [simpl; now rewrite E|reflexivity].
Qed.

Lemma level_match_nonneg (name : str) (level : Z) :
  level_match name = Some level -> (0 <= level)%Z.
Proof.
  unfold level_match. destruct (Py.startswith LVL name); [|discriminate].
  destruct (take_while Py.isdigit _) as [|c ds] eqn:E; [discriminate|].
  intros H. injection H as <-. apply fold_digits_nonneg; [|lia].
  rewrite <- E. apply take_while_all.
Qed.

Lemma read_file_level (file : str * docx) (slug : str) (level : Z)
    (entry : level_entry) :
  read_file file = Some (slug, level, entry) -> (0 <= level)%Z.
Proof.
  destruct file as [name doc]. unfold read_file.
  destruct (negb (Py.endswith DOCX name)); [discriminate|].
  destruct (level_match name) as [l|] eqn:E; [|discriminate].
  destruct (negb (Py.truthy _)); [discriminate|].
  destruct (parse_level_content _ l) as [[[a i] q] w].
  intros H. injection H as _ <- _. now apply level_match_nonneg in E.
Qed.

(** ** The aggregation *)

Lemma processed_cons (file : str * docx) (directory : list (str * docx)) :
  processed (file :: directory)
  = match read_file file with
    | Some x => x :: processed directory
    | None => processed directory
    end.
Proof. unfold processed. simpl. now destruct (read_file file). Qed.

(** The slugs of the dict after the loop: those it had, then the new ones in
    the order of their first encounter. *)
Lemma fold_process_keys (directory : list (str * docx))
    (articles : dict (dict level_entry)) :
  map fst (fold_left process_file directory articles)
  = map fst articles
    ++ first_encounters (map fst articles) (map slug_of (processed directory)).
Proof.
  revert articles; induction directory as [|file rest IH]; intros articles.
  - simpl. now rewrite app_nil_r.
  - cbn [fold_left]. rewrite IH, processed_cons. unfold process_file.
    destruct (read_file file) as [[[slug level] entry]|]; [|reflexivity].
    rewrite store_keys. cbn [map first_encounters slug_of fst].
    destruct (existsb (Py.str_eqb slug) (map fst articles)); [reflexivity|].
    rewrite <- app_assoc. simpl. do 2 f_equal.
    apply first_encounters_ext. intros x. rewrite in_app_iff. simpl. tauto.
Qed.

(** The entry under a slug and a level after the loop: that of the last
    processed file with this slug and this level, if any. *)
Lemma fold_process_lookup (directory : list (str * docx))
    (articles : dict (dict level_entry)) (slug : str) (level : Z) :
  (0 <= level)%Z ->
  lookup (fold_left process_file directory articles) slug (level_key level)
  = fold_left (fun found x =>
                 let '(s, l, entry) := x in
                 if Py.str_eqb s slug && (l =? level)%Z then Some entry
                 else found)
              (processed directory) (lookup articles slug (level_key level)).
Proof.
  intros Hlevel.
  revert articles; induction directory as [|file rest IH]; intros articles;
    [reflexivity|].
  cbn [fold_left]. rewrite IH, processed_cons. unfold process_file.
  destruct (read_file file) as [[[s l] entry]|] eqn:E; [|reflexivity].
  cbn [fold_left]. rewrite lookup_store.
  now rewrite (level_key_eqb l level (read_file_level _ _ _ _ E) Hlevel).
Qed.

Lemma aggregate_keys (directory : list (str * docx)) :
  map fst (aggregate directory)
  = first_encounters [] (map slug_of (processed directory)).
Proof. unfold aggregate. now rewrite fold_process_keys. Qed.

Lemma aggregate_lookup (directory : list (str * docx)) (slug : str)
    (level : Z) :
  (0 <= level)%Z ->
  lookup (aggregate directory) slug (level_key level)
  = last_parse directory slug level.
Proof. intros H. unfold aggregate. now rewrite fold_process_lookup. Qed.

Lemma build_js_data_slugs (n : Z) (items : dict (dict level_entry)) :
  map slug_of_record (build_js_data n items) = map fst items.
Proof.
  revert n; induction items as [|[slug levels] items IH]; intros n;
    [reflexivity|].
  simpl. now rewrite IH.
Qed.

Lemma build_js_data_length (n : Z) (items : dict (dict level_entry)) :
  length (build_js_data n items) = length items.
Proof.
  rewrite <- (length_map slug_of_record), build_js_data_slugs.
  apply length_map.
Qed.

Lemma build_js_data_ids (n : Z) (items : dict (dict level_entry)) :
  map id (build_js_data n items)
  = map (fun k => lit "rec" ++ format_03d (n + Z.of_nat k))
        (seq 0 (length items)).
Proof.
  revert n; induction items as [|[slug levels] items IH]; intros n;
    [reflexivity|].
  cbn [build_js_data map length seq]. f_equal.
  - cbn [make_article id]. now rewrite Z.add_0_r.
  - rewrite IH, <- seq_shift, map_map. apply map_ext. intros k.
    do 2 f_equal. lia.
Qed.

Lemma build_js_data_in (n : Z) (items : dict (dict level_entry))
    (r : article_data) :
  In r (build_js_data n items) ->
  exists k slug levels, In (slug, levels) items /\ r = make_article k slug levels.
Proof.
  revert n; induction items as [|[slug levels] items IH]; intros n;
    [intros []|].
  intros [<-|H].
  - exists n, slug, levels. split; [now left|reflexivity].
  - destruct (IH _ H) as (k & s & l & Hin & ->).
    exists k, s, l. split; [now right|reflexivity].
Qed.

(** The levels that a record of [main] was made from are those stored under
    its slug. *)
Lemma main_record_levels (directory : list (str * docx)) (r : article_data) :
  In r (main directory) ->
  exists k levels,
    dict_get (aggregate directory) (slug_of_record r) = Some levels
    /\ r = make_article k (slug_of_record r) levels.
Proof.
  intros H. destruct (build_js_data_in _ _ _ H) as (k & slug & levels & Hin & ->).
  exists k, levels. split; [|reflexivity].
  apply dict_get_in; [|exact Hin].
  rewrite aggregate_keys. apply first_encounters_nodup.
Qed.

(** The level-1, level-3 and level-6 parses that a record of [main] was made
    from are the last ones processed for its slug. *)
Lemma main_record_last_parses (directory : list (str * docx))
    (r : article_data) :
  In r (main directory) ->
  exists k levels,
    r = make_article k (slug_of_record r) levels
    /\ dict_get levels (lit "level_1")
       = last_parse directory (slug_of_record r) 1
    /\ dict_get levels (lit "level_3")
       = last_parse directory (slug_of_record r) 3
    /\ dict_get levels (lit "level_6")
       = last_parse directory (slug_of_record r) 6.
Proof.
  intros H. destruct (main_record_levels _ _ H) as (k & levels & Hget & E).
  exists k, levels. split; [exact E|].
  repeat split.
  - rewrite <- (aggregate_lookup directory _ 1) by lia.
    unfold lookup. now rewrite Hget.
  - rewrite <- (aggregate_lookup directory _ 3) by lia.
    unfold lookup. now rewrite Hget.
  - rewrite <- (aggregate_lookup directory _ 6) by lia.
    unfold lookup. now rewrite Hget.
Qed.

Lemma NoDup_map_on {A B} (f : A -> B) (l : list A) :
  (forall x y, In x l -> In y l -> f x = f y -> x = y) ->
  NoDup l -> NoDup (map f l).
Proof.
  induction l as [|a l IH]; intros Hinj Hnd; [constructor|].
  inversion Hnd as [|? ? Ha Hl]; subst. simpl. constructor.
  - intros Hin. apply in_map_iff in Hin as (b & E & Hb).
    apply Hinj in E; [|now right|now left]. now subst.
  - apply IH; [|exact Hl]. intros x y Hx Hy. apply Hinj; now right.
Qed.

Lemma main_slugs (directory : list (str * docx)) :
  map slug_of_record (main directory)
  = first_encounters [] (map slug_of (processed directory)).
Proof. unfold main. now rewrite build_js_data_slugs, aggregate_keys. Qed.

Lemma main_ids (directory : list (str * docx)) :
  map id (main directory)
  = map (fun k => lit "rec" ++ zero_pad 3 (decimal (Z.of_nat k + 1)))
        (seq 0 (length (main directory))).
Proof.
  unfold main. rewrite build_js_data_ids, build_js_data_length.
  apply map_ext. intros k. rewrite format_03d_nonneg by lia.
  do 3 f_equal. lia.
Qed.

(** C5: the id of the k-th record (from 0) is "rec" followed by the counter
    k+1 in decimal, padded with zeros to three digits; the records are in the
    order in which their slugs are first met among the processed files, one
    record per slug, and no id is used twice. *)
Theorem record_ids_follow_first_encounter (directory : list (str * docx)) :
  let records := main directory in
  map slug_of_record records
  = first_encounters [] (map slug_of (processed directory))
  /\ map id records
     = map (fun k => lit "rec" ++ zero_pad 3 (decimal (Z.of_nat k + 1)))
           (seq 0 (length records))
  /\ NoDup (map slug_of_record records)
  /\ NoDup (map id records).
Proof.
  intros records. subst records. repeat split.
  - apply main_slugs.
  - apply main_ids.
  - rewrite main_slugs. apply first_encounters_nodup.
  - rewrite main_ids. apply NoDup_map_on; [|apply seq_NoDup].
    intros x y _ _ E. apply app_inv_head, zero_pad_inj in E; lia.
Qed.

Example id_of_counter_7 : lit "rec" ++ format_03d 7 = lit "rec007".
Proof. reflexivity. Qed.

Example id_of_counter_1000 : lit "rec" ++ format_03d 1000 = lit "rec1000".
Proof. reflexivity. Qed.

(** C7: the headline of a record is the headline of the level-3 parse of its
    slug when there is one, else that of the level-1 parse, else that of the
    level-6 parse, else empty; the parse of a level is the last one processed
    for the slug. *)
Theorem headline_by_level_priority (directory : list (str * docx)) :
  Forall (fun r =>
            Headline (article_fields r)
            = match last_parse directory (slug_of_record r) 3 with
              | Some l3 => headline l3
              | None =>
                  match last_parse directory (slug_of_record r) 1 with
                  | Some l1 => headline l1
                  | None =>
                      match last_parse directory (slug_of_record r) 6 with
                      | Some l6 => headline l6
                      | None => []
                      end
                  end
              end)
         (main directory).
Proof.
  apply Forall_forall. intros r Hr.
  destruct (main_record_last_parses _ _ Hr) as (k & levels & E & H1 & H3 & H6).
  cbv beta. rewrite <- H1, <- H3, <- H6. rewrite E at 1. reflexivity.
Qed.

(** C8: there is exactly one record per slug of a processed file, so as many
    records as distinct slugs, and under a slug and a level the parse of the
    last processed file with that slug and that level is the one kept. *)
Theorem records_merge_by_slug (directory : list (str * docx)) :
  let records := main directory in
  let slugs := map slug_of (processed directory) in
  length records = length (first_encounters [] slugs)
  /\ NoDup (map slug_of_record records)
  /\ (forall s, In s (map slug_of_record records) <-> In s slugs)
  /\ (forall slug level, (0 <= level)%Z ->
        lookup (aggregate directory) slug (level_key level)
        = last_parse directory slug level)
  /\ Forall (fun r =>
               let level n := last_parse directory (slug_of_record r) n in
               let f := article_fields r in
               (Level_1_Text f, Level_1_Questions f, Level_1_Instruction f)
               = (field_or_empty (level 1%Z) article_text,
                  field_or_empty (level 1%Z) questions,
                  field_or_empty (level 1%Z) instruction)
               /\ (Level_3_Text f, Level_3_Questions f, Level_3_Instruction f)
                  = (field_or_empty (level 3%Z) article_text,
                     field_or_empty (level 3%Z) questions,
                     field_or_empty (level 3%Z) instruction)
               /\ (Level_6_Text f, Level_6_Questions f, Level_6_Instruction f,
                   Level_6_Writing_Prompt f)
                  = (field_or_empty (level 6%Z) article_text,
                     field_or_empty (level 6%Z) questions,
                     field_or_empty (level 6%Z) instruction,
                     field_or_empty (level 6%Z) writing_prompt))
            records.
Proof.
  intros records slugs. subst records slugs. repeat apply conj.
  - rewrite <- main_slugs. now rewrite length_map.
  - rewrite main_slugs. apply first_encounters_nodup.
  - intros s. rewrite main_slugs, first_encounters_in. simpl. tauto.
  - intros slug level. apply aggregate_lookup.
  - apply Forall_forall. intros r Hr.
    destruct (main_record_last_parses _ _ Hr)
      as (k & levels & E & H1 & H3 & H6).
    cbv beta zeta. rewrite <- H1, <- H3, <- H6.
    rewrite E at 1 2 3 4 5 6 7 8 9 10. repeat split.
Qed.

(** ** The two regular expressions of [parse_filename] on well-formed names *)

Lemma take_while_app (f : ascii -> bool) (a b : str) :
  forallb f a = true -> not_first f b = true -> take_while f (a ++ b) = a.
Proof.
  intros Ha Hb. induction a as [|c a IH]; simpl in *.
  - destruct b as [|d b]; [reflexivity|]. simpl in *.
    now destruct (f d).
  - apply andb_true_iff in Ha as [Hc Ha]. now rewrite Hc, IH.
Qed.

Lemma drop_while_app (f : ascii -> bool) (a b : str) :
  forallb f a = true -> not_first f b = true -> drop_while f (a ++ b) = b.
Proof.
  intros Ha Hb. induction a as [|c a IH]; simpl in *.
  - destruct b as [|d b]; [reflexivity|]. simpl in *.
    now destruct (f d).
  - apply andb_true_iff in Ha as [Hc Ha]. now rewrite Hc, IH.
Qed.

(** The level token "Lvl ", its digits and the white space after them are
    removed from the start of a name. *)
Lemma sub_level_prefix_token (digits gap rest : str) :
  digits <> [] ->
  forallb Py.isdigit digits = true ->
  forallb Py.isspace gap = true ->
  not_first Py.isdigit (gap ++ rest) = true ->
  not_first Py.isspace rest = true ->
  sub_level_prefix (LVL ++ digits ++ gap ++ rest) = rest.
Proof.
  intros Hne Hd Hg Hnd Hns. unfold sub_level_prefix.
  rewrite startswith_app.
  replace (skipn (length LVL) (LVL ++ digits ++ gap ++ rest))
    with (digits ++ gap ++ rest) by reflexivity.
  rewrite (take_while_app _ _ _ Hd Hnd), (drop_while_app _ _ _ Hd Hnd).
  destruct digits; [congruence|]. now apply drop_while_app.
Qed.

(** A name without the level token at its start is left as it is. *)
Lemma sub_level_prefix_absent (s : str) :
  Py.startswith LVL s = false -> sub_level_prefix s = s.
Proof. intros H. unfold sub_level_prefix. now rewrite H. Qed.

Lemma drop_while_space_in (title rest : str) :
  title <> [] ->
  (forall t c, title = t ++ [c] -> Py.isspace c = false) ->
  exists d u, drop_while Py.isspace (title ++ rest) = d :: u /\ In d title.
Proof.
  induction title as [|c t IH]; intros Hne Hlast; [congruence|].
  simpl. destruct (Py.isspace c) eqn:Hc.
  - destruct t as [|c' t'].
    + rewrite (Hlast [] c eq_refl) in Hc. discriminate.
    + destruct IH as (d & u & E & Hin); [discriminate| |].
      * intros t0 c0 E0. apply (Hlast (c :: t0) c0). now rewrite E0.
      * exists d, u. split; [exact E|now right].
  - exists c, (t ++ rest). split; [reflexivity|now left].
Qed.

(** The attribution, from the white space before its underscore to the end of
    the name, is removed after a title that has no underscore. *)
Lemma sub_attribution_suffix (title gap1 gap2 tail : str) :
  forallb (fun c => negb (Ascii.eqb c "_")) title = true ->
  (forall t c, title = t ++ [c] -> Py.isspace c = false) ->
  forallb Py.isspace gap1 = true ->
  forallb Py.isspace gap2 = true ->
  existsb (Ascii.eqb nl) tail = false ->
  sub_attribution
    (title ++ gap1 ++ "_"%char :: gap2 ++ BREAKING_NEWS_ENGLISH ++ tail)
  = title.
Proof.
  intros Hus Hlast Hg1 Hg2 Htail.
  induction title as [|c t IH].
  - assert (E : match_attribution
                  (gap1 ++ "_"%char :: gap2 ++ BREAKING_NEWS_ENGLISH ++ tail)
                = Some []).
    { unfold match_attribution.
      rewrite (drop_while_app Py.isspace gap1) by (assumption || reflexivity).
      cbv beta iota. rewrite Ascii.eqb_refl.
      rewrite (drop_while_app Py.isspace gap2) by (assumption || reflexivity).
      cbv zeta. rewrite startswith_app.
      replace (skipn (length BREAKING_NEWS_ENGLISH)
                 (BREAKING_NEWS_ENGLISH ++ tail)) with tail by reflexivity.
      unfold match_to_end. now rewrite Htail. }
    cbn [app]. destruct gap1; cbn [app sub_attribution] in *; now rewrite E.
  - cbn [forallb] in Hus. apply andb_true_iff in Hus as [Hc Hus].
    assert (E : match_attribution
                  ((c :: t) ++ gap1 ++ "_"%char :: gap2
                   ++ BREAKING_NEWS_ENGLISH ++ tail) = None).
    { unfold match_attribution.
      destruct (drop_while_space_in (c :: t)
                  (gap1 ++ "_"%char :: gap2 ++ BREAKING_NEWS_ENGLISH ++ tail))
        as (d & u & -> & Hin); [discriminate|exact Hlast|].
      assert (Hd : negb (Ascii.eqb d "_") = true).
      { destruct Hin as [<-|Hin]; [exact Hc|].
        rewrite forallb_forall in Hus. now apply Hus. }
      apply negb_true_iff in Hd. now rewrite Hd. }
    change ((c :: t) ++ ?x) with (c :: (t ++ x)) in *.
    cbn [sub_attribution]. rewrite E. f_equal. apply IH; [exact Hus|].
    intros t0 c0 E0. apply (Hlast (c :: t0) c0). now rewrite E0.
Qed.

Lemma space_not_digit (c : ascii) :
  Py.isspace c = true -> Py.isdigit c = false.
Proof. each_char_under c. Qed.

(** X1: the naming convention "Lvl N Title _ Breaking News English ... .docx":
    the slug is the slug of the title. *)
Theorem parse_filename_convention (digits gap title gap1 gap2 tail : str)
    (Hdigits : digits <> [] /\ forallb Py.isdigit digits = true)
    (Hgap : gap <> [] /\ forallb Py.isspace gap = true)
    (Hfirst : title <> [] /\ not_first Py.isspace title = true)
    (Hlast : not_first Py.isspace (rev title) = true)
    (Htitle : forallb (fun c => negb (Ascii.eqb c "_")) title = true)
    (Hgap1 : forallb Py.isspace gap1 = true)
    (Hgap2 : forallb Py.isspace gap2 = true)
    (Htail : existsb (Ascii.eqb nl) tail = false)
    (Hext : Py.str_in DOCX
              (LVL ++ digits ++ gap ++ title ++ gap1 ++ "_"%char :: gap2
               ++ BREAKING_NEWS_ENGLISH ++ tail) = false) :
  parse_filename
    ((LVL ++ digits ++ gap ++ title ++ gap1 ++ "_"%char :: gap2
      ++ BREAKING_NEWS_ENGLISH ++ tail) ++ DOCX)
  = slugify title.
Proof.
  unfold parse_filename.
  rewrite replace_trailing_extension by (now apply str_in_false).
  destruct Hdigits as [Hd1 Hd2], Hgap as [Hg1 Hg2], Hfirst as [Ht1 Ht2].
  rewrite sub_level_prefix_token; try assumption.
  - rewrite sub_attribution_suffix; try assumption; [reflexivity|].
    intros t c E. rewrite E, rev_app_distr in Hlast. simpl in Hlast.
    now apply negb_true_iff in Hlast.
  - destruct gap as [|g gap]; [congruence|]. simpl in *.
    apply andb_true_iff in Hg2 as [Hg _].
    now rewrite (space_not_digit g Hg).
  - destruct title as [|c t]; [congruence|]. exact Ht2.
Qed.

Lemma parse_filename_convention_witness :
  parse_filename
    ((LVL ++ lit "3" ++ lit " " ++ lit "Storm hits city" ++ lit " "
      ++ "_"%char :: lit " " ++ BREAKING_NEWS_ENGLISH ++ lit " - ESL Lesson")
     ++ DOCX)
  = slugify (lit "Storm hits city").
Proof.
  apply (parse_filename_convention (lit "3") (lit " ") (lit "Storm hits city")
           (lit " ") (lit " ") (lit " - ESL Lesson"));
    try reflexivity; split; (discriminate || reflexivity).
Defined.

(** ** A run of [main] *)

Example sample_run :
  map (fun r => (id r, Slug (article_fields r), Headline (article_fields r),
                 Level_1_Text (article_fields r),
                 Level_6_Writing_Prompt (article_fields r)))
      (main sample_directory)
  = [ (lit "rec001", lit "storm-hits-city", lit "Storm again",
       Py.join [nl] [lit "Storm hits city (1)"; lit "Body one."], []);
      (lit "rec002", lit "flood", lit "Flood", [],
       lit "Free Writing: a diary") ].
Proof. vm_compute. reflexivity. Qed.

(** * Further properties of the code *)

(** ** Trimmed strings *)

Lemma lstrip_not_first (s : str) : not_first Py.isspace (Py.lstrip s) = true.
Proof.
  destruct (Py.lstrip s) as [|c t] eqn:E; [reflexivity|].
  simpl. now rewrite (lstrip_head s c t E).
Qed.

Lemma rev_rstrip (s : str) : rev (Py.rstrip s) = Py.lstrip (rev s).
Proof. unfold Py.rstrip. apply rev_involutive. Qed.

Lemma strip_trimmed (s : str) : trimmed (Py.strip s) = true.
Proof.
  unfold trimmed. apply andb_true_iff. split.
  - destruct (Py.strip s) as [|c t] eqn:E; [reflexivity|].
    simpl. now rewrite (strip_head s c t E).
  - unfold Py.strip. rewrite rev_rstrip. apply lstrip_not_first.
Qed.

Lemma lstrip_fixed (s : str) :
  not_first Py.isspace s = true -> Py.lstrip s = s.
Proof.
  destruct s as [|c t]; [reflexivity|]. simpl.
  now destruct (Py.isspace c).
Qed.

Lemma trimmed_strip (s : str) : trimmed s = true -> Py.strip s = s.
Proof.
  unfold trimmed. intros H. apply andb_true_iff in H as [H1 H2].
  unfold Py.strip, Py.rstrip. rewrite (lstrip_fixed s H1).
  rewrite (lstrip_fixed (rev s) H2). apply rev_involutive.
Qed.

Lemma strip_nil_iff (s : str) :
  Py.strip s = [] <-> forallb Py.isspace s = true.
Proof.
  split.
  - intros E. destruct (strip_decomp s) as (a & b & Es & Ha & Hb).
    rewrite E in Es. rewrite Es. simpl. rewrite forallb_app.
    now rewrite Ha, Hb.
  - intros H. assert (E : Py.lstrip s = []).
    { induction s as [|c t IH]; [reflexivity|]. simpl in *.
      apply andb_true_iff in H as [Hc Ht]. rewrite Hc. now apply IH. }
    unfold Py.strip. now rewrite E.
Qed.

Lemma marker_loop_trimmed (markers : list str) (block : str) :
  trimmed block = true ->
  trimmed (fst (marker_loop markers block)) = true
  /\ trimmed (snd (marker_loop markers block)) = true.
Proof.
  intros Hb.
  destruct (marker_loop_selects markers block)
    as [(k & m & i & line & _ & _ & _ & _ & _ & ->)|[_ ->]]; simpl.
  - split; apply strip_trimmed.
  - now split.
Qed.

Lemma parse_level_6_trimmed (a h : str) :
  trimmed a = true -> trimmed h = true ->
  all_trimmed (parse_level_6_content a h) = true.
Proof.
  intros Ha Hh. unfold parse_level_6_content.
  destruct (negb _).
  - destruct (marker_loop_trimmed instruction_markers
                (Py.strip (Py.slice_to h (find_writing_index writing_prompt_markers h)))
                (strip_trimmed _)) as [Hi Hq].
    unfold extract_instruction_and_questions.
    destruct (marker_loop _ _) as [i q]. simpl in *.
    now rewrite Ha, Hi, Hq, strip_trimmed.
  - destruct (marker_loop_trimmed instruction_markers h Hh) as [Hi Hq].
    unfold extract_instruction_and_questions.
    destruct (marker_loop _ _) as [i q]. simpl in *.
    now rewrite Ha, Hi, Hq.
Qed.

Lemma parse_level_1_and_3_trimmed (a h : str) :
  trimmed a = true -> trimmed h = true ->
  all_trimmed (parse_level_1_and_3_content a h) = true.
Proof.
  intros Ha Hh. unfold parse_level_1_and_3_content.
  destruct (marker_loop_trimmed instruction_markers h Hh) as [Hi Hq].
  unfold extract_instruction_and_questions.
  destruct (marker_loop _ _) as [i q]. simpl in *.
  now rewrite Ha, Hi, Hq.
Qed.

Lemma parse_level_content_all_trimmed (full_text : str) (level : Z) :
  all_trimmed (parse_level_content full_text level) = true.
Proof.
  unfold parse_level_content.
  destruct (negb (Py.truthy full_text)); [reflexivity|].
  destruct (_ =? -1)%Z.
  - simpl. now rewrite strip_trimmed.
  - destruct (level =? 6)%Z.
    + apply parse_level_6_trimmed; apply strip_trimmed.
    + apply parse_level_1_and_3_trimmed; apply strip_trimmed.
Qed.

(** X2: the article text, the instruction, the questions and the writing
    prompt that the segmenter returns have no white space at either end:
    trimming any of them again changes nothing. *)
Theorem parse_fields_are_trimmed (full_text : str) (level : Z) :
  let '(article, instr, quest, prompt) := parse_level_content full_text level in
  Py.strip article = article /\ Py.strip instr = instr
  /\ Py.strip quest = quest /\ Py.strip prompt = prompt.
Proof.
  assert (H := parse_level_content_all_trimmed full_text level).
  destruct (parse_level_content full_text level) as [[[a i] q] w].
  unfold all_trimmed in H.
  apply andb_true_iff in H as [H Hw]. apply andb_true_iff in H as [H Hq].
  apply andb_true_iff in H as [Ha Hi].
  repeat split; now apply trimmed_strip.
Qed.

(** ** Every field is a piece of the raw text *)

Lemma occurs_refl (s : str) : occurs s s.
Proof.
  exists 0, [], []. split; [|reflexivity]. simpl. now rewrite app_nil_r.
Qed.

Lemma occurs_nil (s : str) : occurs [] s.
Proof. exists 0, [], s. now split. Qed.

Lemma occurs_trans (a b c : str) : occurs a b -> occurs b c -> occurs a c.
Proof.
  intros Hab (p & pre & post & -> & _). now apply occurs_infix.
Qed.

Lemma occurs_strip_self (s : str) : occurs (Py.strip s) s.
Proof.
  destruct (strip_decomp s) as (a & b & E & _).
  rewrite E at 2. apply occurs_infix, occurs_refl.
Qed.

Lemma occurs_firstn (n : nat) (s : str) : occurs (firstn n s) s.
Proof.
  rewrite <- (firstn_skipn n s) at 2.
  apply (occurs_infix _ [] (firstn n s) (skipn n s)), occurs_refl.
Qed.

Lemma occurs_skipn (n : nat) (s : str) : occurs (skipn n s) s.
Proof.
  rewrite <- (firstn_skipn n s) at 2.
  rewrite <- (app_nil_r (skipn n s)) at 2.
  apply occurs_infix, occurs_refl.
Qed.

Lemma join_skipn_suffix (sep : str) (n : nat) (l : list str) :
  exists pre, Py.join sep l = pre ++ Py.join sep (skipn n l).
Proof.
  revert l; induction n as [|n IH]; intros l; [now exists []|].
  destruct l as [|x l]; [now exists []|].
  destruct (IH l) as [pre E]. cbn [skipn].
  destruct l as [|y l].
  - exists x. destruct n; simpl; now rewrite app_nil_r.
  - exists (x ++ sep ++ pre). rewrite join_cons_cons, E.
    now rewrite <- !app_assoc.
Qed.

Lemma occurs_join_skipn (sep : str) (n : nat) (l : list str) :
  occurs (Py.join sep (skipn n l)) (Py.join sep l).
Proof.
  destruct (join_skipn_suffix sep n l) as [pre E]. rewrite E.
  rewrite <- (app_nil_r (Py.join sep (skipn n l))) at 2.
  apply occurs_infix, occurs_refl.
Qed.

Lemma occurs_line (block line : str) :
  In line (Py.split nl block) -> occurs line block.
Proof.
  intros H. destruct (join_infix [nl] line _ H) as (a & b & E).
  rewrite join_split in E. rewrite E. apply occurs_infix, occurs_refl.
Qed.

Lemma marker_loop_occurs (markers : list str) (block : str) :
  occurs (fst (marker_loop markers block)) block
  /\ occurs (snd (marker_loop markers block)) block.
Proof.
  destruct (marker_loop_selects markers block)
    as [(k & m & i & line & _ & _ & Hn & _ & _ & ->)|[_ ->]]; simpl.
  - split.
    + apply (occurs_trans _ line); [apply occurs_strip_self|].
      apply occurs_line. eapply nth_error_In, Hn.
    + eapply occurs_trans; [apply occurs_strip_self|].
      rewrite <- (join_split nl block) at 2. apply occurs_join_skipn.
  - split; [apply occurs_nil|apply occurs_refl].
Qed.

Lemma parse_level_6_occurs (a h : str) :
  let p := parse_level_6_content a h in
  article_text_of p = a /\ occurs (instruction_of p) h
  /\ occurs (questions_of p) h /\ occurs (writing_prompt_of p) h.
Proof.
  unfold parse_level_6_content, extract_instruction_and_questions.
  destruct (negb _).
  - set (b := Py.strip (Py.slice_to h _)).
    assert (Hb : occurs b h).
    { eapply occurs_trans; [apply occurs_strip_self|apply occurs_firstn]. }
    destruct (marker_loop_occurs instruction_markers b) as [Hi Hq].
    destruct (marker_loop instruction_markers b) as [i q]. simpl in *.
    repeat split; try (eapply occurs_trans; eassumption).
    eapply occurs_trans; [apply occurs_strip_self|apply occurs_skipn].
  - destruct (marker_loop_occurs instruction_markers h) as [Hi Hq].
    destruct (marker_loop instruction_markers h) as [i q]. simpl in *.
    repeat split; try assumption. apply occurs_nil.
Qed.

Lemma parse_level_1_and_3_occurs (a h : str) :
  let p := parse_level_1_and_3_content a h in
  article_text_of p = a /\ occurs (instruction_of p) h
  /\ occurs (questions_of p) h /\ writing_prompt_of p = [].
Proof.
  unfold parse_level_1_and_3_content, extract_instruction_and_questions.
  destruct (marker_loop_occurs instruction_markers h) as [Hi Hq].
  destruct (marker_loop instruction_markers h) as [i q]. simpl in *.
  now repeat split.
Qed.

(** X3: the segmenter invents no text: the article text, the instruction, the
    questions and the writing prompt each occur, as they are, in the raw
    text. *)
Theorem parse_fields_occur_in_text (full_text : str) (level : Z) :
  let p := parse_level_content full_text level in
  occurs (article_text_of p) full_text
  /\ occurs (instruction_of p) full_text
  /\ occurs (questions_of p) full_text
  /\ occurs (writing_prompt_of p) full_text.
Proof.
  unfold parse_level_content.
  destruct (negb (Py.truthy full_text));
    [simpl; repeat split; apply occurs_nil|].
  destruct (_ =? -1)%Z.
  - simpl. repeat split; try apply occurs_nil. apply occurs_strip_self.
  - set (a := Py.strip (Py.slice_to full_text _)).
    set (h := Py.strip (Py.slice_from full_text _)).
    assert (Ha : occurs a full_text).
    { eapply occurs_trans; [apply occurs_strip_self|apply occurs_firstn]. }
    assert (Hh : occurs h full_text).
    { eapply occurs_trans; [apply occurs_strip_self|apply occurs_skipn]. }
    destruct (level =? 6)%Z.
    + destruct (parse_level_6_occurs a h) as (-> & Hi & Hq & Hw).
      repeat split; try assumption; eapply occurs_trans; eassumption.
    + destruct (parse_level_1_and_3_occurs a h) as (-> & Hi & Hq & ->).
      repeat split; try assumption; try apply occurs_nil;
        eapply occurs_trans; eassumption.
Qed.

(** ** The shape of the instruction and of the writing prompt *)

Lemma isspace_lower_char (c : ascii) :
  Py.isspace (Py.lower_char c) = Py.isspace c.
Proof. each_char_under c. Qed.

Lemma lower_lstrip (s : str) : Py.lower (Py.lstrip s) = Py.lstrip (Py.lower s).
Proof.
  induction s as [|c t IH]; [reflexivity|]. simpl.
  rewrite isspace_lower_char. now destruct (Py.isspace c).
Qed.

Lemma lower_strip (s : str) : Py.lower (Py.strip s) = Py.strip (Py.lower s).
Proof.
  unfold Py.strip, Py.rstrip, Py.lower.
  rewrite map_rev. fold (Py.lower (Py.lstrip (rev (Py.lstrip s)))).
  rewrite lower_lstrip. unfold Py.lower at 1. rewrite map_rev.
  fold (Py.lower (Py.lstrip s)). now rewrite lower_lstrip.
Qed.

Lemma occurs_lstrip (sub s : str) :
  sub <> [] -> not_first Py.isspace sub = true ->
  occurs sub s -> occurs sub (Py.lstrip s).
Proof.
  intros Hne Hfirst. induction s as [|c t IH]; [easy|].
  simpl. destruct (Py.isspace c) eqn:Hc; [|easy].
  intros [[|p] H].
  - apply occurs_at_0 in H. destruct sub as [|d sub]; [congruence|].
    simpl in H, Hfirst. apply andb_true_iff in H as [Hd _].
    apply Ascii.eqb_eq in Hd. subst d. rewrite Hc in Hfirst. discriminate.
  - apply occurs_at_S in H. apply IH. now exists p.
Qed.

Lemma occurs_rev (sub s : str) : occurs sub s -> occurs (rev sub) (rev s).
Proof.
  intros (p & pre & post & -> & _). rewrite !rev_app_distr, <- app_assoc.
  apply occurs_infix, occurs_refl.
Qed.

Lemma rev_not_nil {A} (l : list A) : l <> [] -> rev l <> [].
Proof.
  intros H E. apply H. rewrite <- (rev_involutive l), E. reflexivity.
Qed.

(** An occurrence of a trimmed string survives trimming. *)
Lemma occurs_strip_inner (sub s : str) :
  sub <> [] -> trimmed sub = true -> occurs sub s -> occurs sub (Py.strip s).
Proof.
  unfold trimmed. intros Hne Ht H. apply andb_true_iff in Ht as [H1 H2].
  apply (occurs_lstrip sub s Hne H1) in H.
  unfold Py.strip, Py.rstrip. apply occurs_rev in H.
  apply (occurs_lstrip _ _ (rev_not_nil sub Hne) H2) in H.
  apply occurs_rev in H. now rewrite rev_involutive in H.
Qed.

Lemma split_no_sep (sep : ascii) (s line : str) :
  In line (Py.split sep s) -> ~ In sep line.
Proof.
  revert line; induction s as [|c t IH]; intros line; simpl.
  - intros [<-|[]] [].
  - destruct (Ascii.eqb_spec c sep) as [->|Hc].
    + intros [<-|H]; [intros []|now apply IH].
    + destruct (Py.split sep t) as [|l ls] eqn:E;
        [now apply split_nonempty in E|].
      intros [<-|H].
      * intros [?|Hin]; [congruence|]. revert Hin. apply IH. now left.
      * apply IH. now right.
Qed.

Lemma in_strip (c : ascii) (s : str) : In c (Py.strip s) -> In c s.
Proof.
  intros H. destruct (strip_decomp s) as (a & b & E & _). rewrite E.
  rewrite !in_app_iff. tauto.
Qed.

Lemma occurs_not_nil (sub s : str) : sub <> [] -> occurs sub s -> s <> [].
Proof.
  intros Hne (p & pre & post & -> & _) E.
  apply app_eq_nil in E as [_ E]. apply app_eq_nil in E as [E _]. congruence.
Qed.

Lemma instruction_markers_trimmed (marker : str) :
  In marker instruction_markers ->
  Py.lower marker <> [] /\ trimmed (Py.lower marker) = true.
Proof.
  intros H. repeat destruct H as [<-|H]; try destruct H;
    (split; [discriminate|reflexivity]).
Qed.

Lemma writing_prompt_markers_trimmed (marker : str) :
  In marker writing_prompt_markers ->
  Py.lower marker <> [] /\ trimmed (Py.lower marker) = true.
Proof.
  intros H. repeat destruct H as [<-|H]; try destruct H;
    (split; [discriminate|reflexivity]).
Qed.

(** X4: the instruction is empty, and then the questions are the whole
    block, or it is one line (it has no newline) that contains one of the
    instruction markers, letter case ignored. *)
Theorem instruction_is_empty_or_a_marker_line (block : str) :
  let instr := fst (extract_instruction_and_questions block) in
  let quest := snd (extract_instruction_and_questions block) in
  (instr = [] /\ quest = block)
  \/ (exists marker, In marker instruction_markers
                     /\ contains_ci marker instr
                     /\ instr <> [] /\ ~ In nl instr).
Proof.
  cbv zeta.
  destruct (marker_loop_selects instruction_markers block)
    as [(k & m & i & line & Hk & _ & Hn & Hc & _ & E)|[_ E]];
    unfold extract_instruction_and_questions; rewrite E;
    [right|now left].
  assert (Hm : In m instruction_markers) by (eapply nth_error_In, Hk).
  destruct (instruction_markers_trimmed m Hm) as [Hne Ht].
  assert (Hs : contains_ci m (Py.strip line)).
  { unfold contains_ci in *. rewrite lower_strip.
    now apply occurs_strip_inner. }
  exists m. simpl. repeat split; try assumption.
  - intros E0. unfold contains_ci in Hs. rewrite E0 in Hs.
    now apply (occurs_not_nil _ _ Hne Hs).
  - intros Hin. apply in_strip in Hin. revert Hin.
    apply (split_no_sep nl block). eapply nth_error_In, Hn.
Qed.

(** The loop over the writing-prompt markers, in all cases: no marker occurs
    and the index is -1, or the index is the first position of a marker. *)
Lemma find_writing_index_cases (markers : list str) (block : str) :
  (find_writing_index markers block = (-1)%Z
   /\ forall m, In m markers -> ~ contains_ci m block)
  \/ (exists m p, In m markers
                  /\ find_writing_index markers block = Z.of_nat p
                  /\ first_occurrence (Py.lower m) (Py.lower block) p).
Proof.
  induction markers as [|m ms IH]; [left; split; [reflexivity|intros ? []]|].
  simpl.
  destruct (find_spec (Py.lower m) (Py.lower block))
    as [[Hf Hno]|(p & Hf & Hfirst)].
  - rewrite Hf. simpl. destruct IH as [[E Hall]|(m' & p & Hin & E & Hfirst)].
    + left. split; [exact E|]. intros m' [<-|Hin]; [exact Hno|now apply Hall].
    + right. exists m', p. split; [now right|now split].
  - right. exists m, p. split; [now left|]. rewrite Hf.
    destruct (Z.eqb_spec (Z.of_nat p) (-1)); [lia|]. now split.
Qed.

Lemma lstrip_app_keeps (a b : str) :
  b <> [] -> not_first Py.isspace b = true ->
  exists a', Py.lstrip (a ++ b) = a' ++ b.
Proof.
  intros Hne Hb. induction a as [|c a IH].
  - exists []. simpl. now apply lstrip_fixed.
  - simpl. destruct (Py.isspace c); [exact IH|]. now exists (c :: a).
Qed.

(** Trimming keeps a trimmed prefix. *)
Lemma strip_keeps_prefix (x rest : str) :
  x <> [] -> trimmed x = true ->
  exists rest', Py.strip (x ++ rest) = x ++ rest'.
Proof.
  unfold trimmed. intros Hne Ht. apply andb_true_iff in Ht as [H1 H2].
  unfold Py.strip, Py.rstrip.
  assert (E1 : Py.lstrip (x ++ rest) = x ++ rest)
    by (apply lstrip_fixed; destruct x; [congruence|exact H1]).
  rewrite E1, rev_app_distr.
  destruct (lstrip_app_keeps (rev rest) (rev x) (rev_not_nil x Hne) H2)
    as [a' ->].
  exists (rev a'). now rewrite rev_app_distr, rev_involutive.
Qed.

Lemma first_occurrence_skipn (sub s : str) (p : nat) :
  first_occurrence sub s p -> exists post, skipn p s = sub ++ post.
Proof.
  intros [(pre & post & -> & <-) _]. exists post.
  rewrite skipn_app, skipn_all, Nat.sub_diag. reflexivity.
Qed.

(** *** The writing prompt over all of Unicode *)





Section Fold.
Variable fold : N -> N.
Hypothesis fold_space : forall c, Wide.isspace (fold c) = Wide.isspace c.



End Fold.






(** ** The level *)


(** X6: every level other than 6 is handled like level 1, and its writing
    prompt is empty. *)
Theorem other_levels_are_handled_alike (full_text : str) (level : Z)
    (H : level <> 6%Z) :
  parse_level_content full_text level = parse_level_content full_text 1
  /\ writing_prompt_of (parse_level_content full_text level) = [].
Proof.
  unfold parse_level_content.
  destruct (Z.eqb_spec level 6) as [|_]; [contradiction|].
  split; [reflexivity|].
  destruct (negb (Py.truthy full_text)); [reflexivity|].
  destruct (_ =? -1)%Z; [reflexivity|].
  now destruct (parse_level_1_and_3_occurs
                  (Py.strip (Py.slice_to full_text (Py.find HOMEWORK full_text)))
                  (Py.strip (Py.slice_from full_text
                     (Py.find HOMEWORK full_text + Z.of_nat (length HOMEWORK)))))
    as (_ & _ & _ & E).
Qed.

Lemma other_levels_are_handled_alike_witness :
  parse_level_content homework_text 3 = parse_level_content homework_text 1
  /\ writing_prompt_of (parse_level_content homework_text 3) = [].
Proof.
  apply (other_levels_are_handled_alike homework_text 3). discriminate.
Defined.

Lemma occurs_lower (a b : str) :
  occurs a b -> occurs (Py.lower a) (Py.lower b).
Proof.
  intros (p & pre & post & -> & _). unfold Py.lower. rewrite !map_app.
  apply occurs_infix, occurs_refl.
Qed.

Lemma contains_ci_part (marker part whole : str) :
  occurs part whole -> contains_ci marker part -> contains_ci marker whole.
Proof.
  unfold contains_ci. intros Hp Hm.
  eapply occurs_trans; [exact Hm|now apply occurs_lower].
Qed.

Lemma parse_level_6_without_markers (a h : str) :
  (forall m, In m writing_prompt_markers -> ~ contains_ci m h) ->
  parse_level_6_content a h = parse_level_1_and_3_content a h.
Proof.
  intros H. unfold parse_level_6_content, parse_level_1_and_3_content.
  destruct (find_writing_index_cases writing_prompt_markers h)
    as [[E _]|(m & p & Hin & _ & [Ho _])].
  - now rewrite E.
  - exfalso. apply (H m Hin). now exists p.
Qed.

(** X7: a text in which no writing-prompt marker occurs, letter case ignored,
    is parsed at level 6 as at the other levels. *)
Theorem level_6_without_markers_is_like_level_1 (full_text : str)
    (H : forall m, In m writing_prompt_markers -> ~ contains_ci m full_text) :
  parse_level_content full_text 6 = parse_level_content full_text 1.
Proof.
  unfold parse_level_content.
  destruct (negb (Py.truthy full_text)); [reflexivity|].
  destruct (_ =? -1)%Z; [reflexivity|].
  change (6 =? 6)%Z with true. change (1 =? 6)%Z with false. cbv iota.
  apply parse_level_6_without_markers. intros m Hin Hc.
  apply (H m Hin). revert Hc. apply contains_ci_part.
  eapply occurs_trans; [apply occurs_strip_self|apply occurs_skipn].
Qed.

Lemma level_6_without_markers_witness :
  parse_level_content homework_text 6 = parse_level_content homework_text 1.
Proof.
  apply (level_6_without_markers_is_like_level_1 homework_text).
  intros m Hin. apply str_in_false.
  repeat destruct Hin as [<-|Hin]; try destruct Hin; reflexivity.
Defined.

(** X8: the article text does not depend on the level. *)
Theorem article_text_is_level_independent (full_text : str) (level level' : Z) :
  article_text_of (parse_level_content full_text level)
  = article_text_of (parse_level_content full_text level').
Proof.
  destruct (article_text_cases full_text level) as [[Hno E]|(p & Hp & E)],
    (article_text_cases full_text level') as [[Hno' E']|(p' & Hp' & E')].
  - now rewrite E, E'.
  - exfalso. apply Hno. exists p'. apply Hp'.
  - exfalso. apply Hno'. exists p. apply Hp.
  - rewrite E, E'. apply find_first_occurrence in Hp, Hp'.
    assert (p = p') by lia. now subst.
Qed.

(** ** Slugs of file names *)

Lemma occurs_in (sub s : str) (c : ascii) :
  occurs sub s -> In c sub -> In c s.
Proof.
  intros (p & pre & post & -> & _) H. rewrite !in_app_iff. tauto.
Qed.

Lemma replace_absent (old new s : str) :
  ~ occurs old s -> Py.replace old new s = s.
Proof.
  unfold Py.replace. induction s as [|c t IH]; intros H; [reflexivity|].
  cbn [Py.replace_from].
  destruct (Py.startswith old (c :: t)) eqn:E.
  - exfalso. apply H. exists 0. now apply occurs_at_0.
  - rewrite IH; [reflexivity|]. intros Ht. apply H.
    apply (occurs_infix old [c] t []) in Ht. now rewrite app_nil_r in Ht.
Qed.

Lemma slug_chars_in (s : str) (c : ascii) :
  forallb slug_char s = true -> In c s -> slug_char c = true.
Proof. rewrite forallb_forall. auto. Qed.

Lemma slug_char_not_underscore (c : ascii) :
  slug_char c = true -> Ascii.eqb c "_" = false.
Proof. each_char_under c. Qed.

Lemma sub_level_prefix_slug (s : str) :
  forallb slug_char s = true -> sub_level_prefix s = s.
Proof.
  intros H. unfold sub_level_prefix.
  destruct (Py.startswith LVL s) eqn:E; [|reflexivity].
  apply startswith_true in E as [post ->].
  apply (slug_chars_in _ "L"%char) in H; [discriminate|now left].
Qed.

Lemma sub_attribution_slug (s : str) :
  forallb slug_char s = true -> sub_attribution s = s.
Proof.
  induction s as [|c t IH]; [reflexivity|]. intros H.
  cbn [forallb] in H. apply andb_true_iff in H as [Hc Ht].
  cbn [sub_attribution]. unfold match_attribution. cbn [drop_while].
  assert (Hs := slug_char_nospace c Hc). apply negb_true_iff in Hs.
  rewrite Hs, (slug_char_not_underscore c Hc). now rewrite IH.
Qed.

(** The normalizer leaves a string of slug characters as it is. *)
Lemma parse_filename_fixed (s : str) :
  forallb slug_char s = true -> parse_filename s = s.
Proof.
  intros H. unfold parse_filename.
  rewrite replace_absent.
  - rewrite (sub_level_prefix_slug s H), (sub_attribution_slug s H).
    now apply slugify_fixed.
  - intros Ho. apply (occurs_in _ _ "."%char) in Ho; [|now left].
    apply (slug_chars_in s _ H) in Ho. discriminate.
Qed.

(** X9: the slug of any file name consists of lower-case ASCII letters,
    digits and hyphens only; in particular it has no white space, no dot and
    no underscore. *)
Theorem parse_filename_alphabet (filename : str) :
  Forall (fun c => Py.is_az c = true \/ Py.isdigit c = true \/ c = "-"%char)
         (parse_filename filename).
Proof.
  apply Forall_forall. intros c Hc.
  assert (H : slug_char c = true).
  { apply (slug_chars_in (parse_filename filename)); [|exact Hc].
    apply slugify_chars. }
  unfold slug_char in H. apply orb_true_iff in H as [H|H].
  - apply orb_true_iff in H as [H|H]; tauto.
  - apply Ascii.eqb_eq in H. tauto.
Qed.

(** X10: a slug is its own slug: the normalizer applied to its result
    returns it unchanged. *)
Theorem parse_filename_idempotent (filename : str) :
  parse_filename (parse_filename filename) = parse_filename filename.
Proof. apply parse_filename_fixed. unfold parse_filename. apply slugify_chars. Qed.

Lemma slug_class_lower_char (c : ascii) :
  slug_class (Py.lower_char c) = slug_class c.
Proof. each_char_under c. Qed.

Lemma lower_char_idempotent (c : ascii) :
  Py.lower_char (Py.lower_char c) = Py.lower_char c.
Proof. each_char_under c. Qed.

Lemma lower_filter_lower (x : str) :
  Py.lower (filter slug_class (Py.lower x)) = Py.lower (filter slug_class x).
Proof.
  induction x as [|c x IH]; [reflexivity|]. simpl.
  rewrite slug_class_lower_char. destruct (slug_class c); [|exact IH].
  simpl. now rewrite lower_char_idempotent, IH.
Qed.

Lemma slug_class_ascii_lower (c : ascii) :
  slug_class (ascii_lower_char c) = slug_class c.
Proof. each_char_under c. Qed.

Lemma lower_char_ascii_lower (c : ascii) :
  Py.lower_char (ascii_lower_char c) = Py.lower_char c.
Proof. each_char_under c. Qed.

Lemma lower_filter_ascii_lower (x : str) :
  Py.lower (filter slug_class (map ascii_lower_char x))
  = Py.lower (filter slug_class x).
Proof.
  induction x as [|c x IH]; [reflexivity|]. simpl.
  rewrite slug_class_ascii_lower. destruct (slug_class c); [|exact IH].
  simpl. now rewrite lower_char_ascii_lower, IH.
Qed.

(** X11: the slug of a title does not depend on the case of its ASCII
    letters: two titles that are equal once A-Z are made a-z have the same
    slug. *)
Theorem slugify_ignores_letter_case (x y : str)
    (H : map ascii_lower_char x = map ascii_lower_char y) :
  slugify x = slugify y.
Proof.
  unfold slugify.
  now rewrite <- (lower_filter_ascii_lower x),
              <- (lower_filter_ascii_lower y), H.
Qed.

Lemma slugify_ignores_letter_case_witness :
  slugify (lit "Storm Hits CITY") = slugify (lit "storm hits city").
Proof.
  apply (slugify_ignores_letter_case (lit "Storm Hits CITY")
           (lit "storm hits city")).
  reflexivity.
Defined.

(** ** The level number of a file name *)


Lemma fold_digits_revapp (d e : Decimal.uint) :
  fold_left digit_step (lit (NilEmpty.string_of_uint d))
            (Z.of_N (DecimalPos.Unsigned.of_lu e))
  = Z.of_N (DecimalPos.Unsigned.of_lu (Decimal.revapp d e)).
Proof.
  revert e; induction d; intros e; [reflexivity|..];
    cbn [NilEmpty.string_of_uint lit list_ascii_of_string fold_left
         Decimal.revapp];
    rewrite <- IHd; f_equal;
    unfold digit_step; cbn [DecimalPos.Unsigned.of_lu];
    match goal with
    | |- context [Z.of_nat (nat_of_ascii ?c)] =>
        let v := eval vm_compute in (Z.of_nat (nat_of_ascii c)) in
        change (Z.of_nat (nat_of_ascii c)) with v
    end; lia.
Qed.

(** [int(str(n)) == n] *)
Lemma int_of_digits_decimal (n : Z) :
  (0 <= n)%Z -> int_of_digits (decimal n) = n.
Proof.
  intros H. unfold int_of_digits, decimal.
  change 0%Z with (Z.of_N (DecimalPos.Unsigned.of_lu Decimal.Nil)).
  change (fun acc c => (10 * acc + (Z.of_nat (nat_of_ascii c) - 48))%Z)
    with digit_step.
  rewrite fold_digits_revapp.
  change (Decimal.revapp ?d Decimal.Nil) with (Decimal.rev d).
  rewrite <- DecimalPos.Unsigned.of_uint_alt.
  change (Pos.of_uint ?d) with (N.of_uint d).
  rewrite DecimalN.Unsigned.of_to. lia.
Qed.

Lemma uint_digits (d : Decimal.uint) :
  forallb Py.isdigit (lit (NilEmpty.string_of_uint d)) = true.
Proof. induction d; [reflexivity|..]; exact IHd. Qed.

Lemma decimal_digits (n : Z) :
  decimal n <> [] /\ forallb Py.isdigit (decimal n) = true.
Proof.
  split; [|apply uint_digits].
  unfold decimal. destruct (Z.to_N n) as [|p]; [discriminate|].
  simpl. assert (H := DecimalPos.Unsigned.to_uint_nonnil p).
  destruct (Pos.to_uint p); [congruence|..]; discriminate.
Qed.

(** X12: a file name that starts with "Lvl ", the decimal numeral of a level
    [n >= 0] and a character that is not a digit has level [n]. *)
Theorem level_match_reads_the_level (n : Z) (rest : str)
    (Hn : (0 <= n)%Z) (Hrest : not_first Py.isdigit rest = true) :
  level_match (LVL ++ str_of_int n ++ rest) = Some n.
Proof.
  unfold level_match, str_of_int.
  destruct (Z.ltb_spec n 0); [lia|].
  rewrite startswith_app.
  replace (skipn (length LVL) (LVL ++ decimal n ++ rest))
    with (decimal n ++ rest) by reflexivity.
  destruct (decimal_digits n) as [Hne Hd].
  rewrite (take_while_app _ _ _ Hd Hrest).
  destruct (decimal n) as [|c ds] eqn:E; [congruence|].
  rewrite <- E. now rewrite int_of_digits_decimal.
Qed.

Lemma level_match_reads_the_level_witness :
  level_match (LVL ++ str_of_int 6 ++ lit " Flood.docx") = Some 6%Z.
Proof.
  apply (level_match_reads_the_level 6 (lit " Flood.docx")).
  - lia.
  - reflexivity.
Defined.

(** ** Files and records *)

Lemma read_file_some (name : str) (doc : docx) (slug : str) (level : Z)
    (entry : level_entry) :
  read_file (name, doc) = Some (slug, level, entry) ->
  Py.endswith DOCX name = true
  /\ level_match name = Some level
  /\ slug = parse_filename name
  /\ extract_text_from_docx doc <> []
  /\ parse_level_content (extract_text_from_docx doc) level
     = (article_text entry, instruction entry, questions entry,
        writing_prompt entry)
  /\ headline entry = headline_of (extract_text_from_docx doc)
  /\ filename entry = name.
Proof.
  unfold read_file.
  destruct (Py.endswith DOCX name); [|discriminate]. simpl.
  destruct (level_match name) as [l|]; [|discriminate].
  destruct (extract_text_from_docx doc) as [|c t] eqn:Et; [discriminate|].
  simpl. destruct (parse_level_content (c :: t) l) as [[[a i] q] w] eqn:Ep.
  intros H. injection H as <- <- <-. simpl.
  repeat split; try assumption; discriminate.
Qed.

Lemma read_file_none (name : str) (doc : docx) :
  Py.endswith DOCX name = false \/ level_match name = None
  \/ extract_text_from_docx doc = [] ->
  read_file (name, doc) = None.
Proof.
  unfold read_file. intros [H|[H|H]].
  - now rewrite H.
  - rewrite H. now destruct (negb _).
  - rewrite H. destruct (negb _); [reflexivity|].
    now destruct (level_match name).
Qed.

Lemma processed_in (directory : list (str * docx))
    (x : str * Z * level_entry) :
  In x (processed directory)
  <-> exists file, In file directory /\ read_file file = Some x.
Proof.
  unfold processed. rewrite in_flat_map. split.
  - intros (file & Hin & Hx). exists file. split; [exact Hin|].
    destruct (read_file file) as [y|]; [|destruct Hx].
    destruct Hx as [->|[]]. reflexivity.
  - intros (file & Hin & E). exists file. split; [exact Hin|].
    rewrite E. now left.
Qed.

Lemma fold_last_some (xs : list (str * Z * level_entry)) (slug : str)
    (level : Z) (init : option level_entry) (entry : level_entry) :
  fold_left (fun found x =>
               let '(s, l, e) := x in
               if Py.str_eqb s slug && (l =? level)%Z then Some e
               else found) xs init = Some entry ->
  init = Some entry \/ In (slug, level, entry) xs.
Proof.
  revert init; induction xs as [|[[s l] e] xs IH]; intros init H;
    [now left|].
  cbn [fold_left] in H. apply IH in H as [H|H]; [|right; now right].
  destruct (str_eqb_spec s slug) as [->|]; [|now left].
  destruct (Z.eqb_spec l level) as [->|]; [|now left].
  simpl in H. injection H as ->. right. now left.
Qed.

(** A parse kept under a slug and a level is that of a file of the
    directory. *)
Lemma last_parse_some (directory : list (str * docx)) (slug : str)
    (level : Z) (entry : level_entry) :
  last_parse directory slug level = Some entry ->
  exists name doc,
    In (name, doc) directory
    /\ read_file (name, doc) = Some (slug, level, entry).
Proof.
  intros H. apply fold_last_some in H as [H|H]; [discriminate|].
  apply processed_in in H as ([name doc] & Hin & E). now exists name, doc.
Qed.

(** X13: a file that is skipped (its name does not end in ".docx", or has no
    level at its start, or its document cannot be read or has no text) leaves
    no trace in the records, wherever it is in the directory. *)
Theorem skipped_file_leaves_no_trace (before after : list (str * docx))
    (name : str) (doc : docx)
    (H : Py.endswith DOCX name = false \/ level_match name = None
         \/ extract_text_from_docx doc = []) :
  main (before ++ (name, doc) :: after) = main (before ++ after).
Proof.
  unfold main, aggregate. rewrite !fold_left_app. cbn [fold_left].
  unfold process_file at 2. now rewrite (read_file_none name doc H).
Qed.

Lemma skipped_file_leaves_no_trace_witness :
  main (firstn 1 sample_directory
        ++ (lit "notes.txt", Some [lit "Notes"]) :: skipn 2 sample_directory)
  = main (firstn 1 sample_directory ++ skipn 2 sample_directory).
Proof.
  apply (skipped_file_leaves_no_trace (firstn 1 sample_directory)
           (skipn 2 sample_directory) (lit "notes.txt") (Some [lit "Notes"])).
  left. reflexivity.
Defined.

Lemma first_encounters_length (seen l : list str) :
  length (first_encounters seen l) <= length l.
Proof.
  revert seen; induction l as [|x l IH]; intros seen; simpl; [lia|].
  destruct (existsb _ seen); simpl.
  - specialize (IH seen). lia.
  - specialize (IH (x :: seen)). lia.
Qed.

Lemma processed_length (directory : list (str * docx)) :
  length (processed directory) <= length directory.
Proof.
  induction directory as [|file rest IH]; [simpl; lia|].
  rewrite processed_cons. destruct (read_file file); simpl; lia.
Qed.

(** X14: there are never more records than files in the directory. *)
Theorem no_more_records_than_files (directory : list (str * docx)) :
  length (main directory) <= length directory.
Proof.
  rewrite <- (length_map slug_of_record), main_slugs.
  etransitivity; [apply first_encounters_length|].
  rewrite length_map. apply processed_length.
Qed.

(** X15: the slug of every record is the slug of the name of a file of the
    directory, one whose name ends in ".docx" and starts with a level and
    whose document has text. *)
Theorem record_slug_is_a_file_slug (directory : list (str * docx)) :
  Forall (fun r =>
            exists name doc,
              In (name, doc) directory
              /\ Py.endswith DOCX name = true
              /\ level_match name <> None
              /\ extract_text_from_docx doc <> []
              /\ slug_of_record r = parse_filename name)
         (main directory).
Proof.
  apply Forall_forall. intros r Hr.
  assert (H : In (slug_of_record r) (map slug_of_record (main directory)))
    by now apply in_map.
  rewrite main_slugs, first_encounters_in in H. destruct H as [H _].
  apply in_map_iff in H as ([[s l] e] & Es & Hx).
  unfold slug_of in Es. cbn [fst] in Es.
  apply processed_in in Hx as ([name doc] & Hin & E).
  apply read_file_some in E as (He & Hl & Hs & Ht & _).
  exists name, doc. repeat split; try assumption; [now rewrite Hl|congruence].
Qed.

Lemma writing_prompt_other_levels (text : str) (level : Z) :
  level <> 6%Z -> writing_prompt_of (parse_level_content text level) = [].
Proof.
  intros H. unfold parse_level_content.
  destruct (Z.eqb_spec level 6) as [|_]; [contradiction|].
  destruct (negb (Py.truthy text)); [reflexivity|].
  destruct (_ =? -1)%Z; [reflexivity|].
  unfold parse_level_1_and_3_content.
  now destruct (extract_instruction_and_questions _).
Qed.

(** The fields that a record takes from a level come from a file. *)
Lemma level_fields_come_from (directory : list (str * docx)) (slug : str)
    (level : Z) :
  let found := last_parse directory slug level in
  comes_from directory slug level
    (field_or_empty found article_text) (field_or_empty found instruction)
    (field_or_empty found questions) (field_or_empty found writing_prompt).
Proof.
  cbv zeta. destruct (last_parse directory slug level) as [e|] eqn:E;
    [right|now left].
  apply last_parse_some in E as (name & doc & Hin & E).
  apply read_file_some in E as (_ & Hl & Hs & _ & Hp & _).
  exists name, doc. simpl. now repeat split.
Qed.

Lemma last_parse_prompt_other_levels (directory : list (str * docx))
    (slug : str) (level : Z) :
  level <> 6%Z ->
  field_or_empty (last_parse directory slug level) writing_prompt = [].
Proof.
  intros H. destruct (last_parse directory slug level) as [e|] eqn:E;
    [|reflexivity].
  apply last_parse_some in E as (name & doc & _ & E).
  apply read_file_some in E as (_ & _ & _ & _ & Hp & _).
  assert (Hw := writing_prompt_other_levels (extract_text_from_docx doc) level H).
  rewrite Hp in Hw. exact Hw.
Qed.

(** X16: every field of a record is accounted for.  The reserved fields (the
    image and the levels 0, 2, 4 and 5) are empty; the fields of level 1, of
    level 3 and of level 6 are all empty or are the parse, at that level, of
    the text of a file of the directory with the record's slug and that
    level. *)
Theorem record_fields_come_from_files (directory : list (str * docx)) :
  Forall (fun r =>
            let f := article_fields r in
            (Image_URL f = []
             /\ Level_0_Text f = [] /\ Level_0_Questions f = []
             /\ Level_2_Text f = [] /\ Level_2_Questions f = []
             /\ Level_4_Text f = [] /\ Level_4_Questions f = []
             /\ Level_5_Text f = [] /\ Level_5_Questions f = [])
            /\ comes_from directory (Slug f) 1
                 (Level_1_Text f) (Level_1_Instruction f)
                 (Level_1_Questions f) []
            /\ comes_from directory (Slug f) 3
                 (Level_3_Text f) (Level_3_Instruction f)
                 (Level_3_Questions f) []
            /\ comes_from directory (Slug f) 6
                 (Level_6_Text f) (Level_6_Instruction f)
                 (Level_6_Questions f) (Level_6_Writing_Prompt f))
         (main directory).
Proof.
  apply Forall_forall. intros r Hr.
  destruct (main_record_last_parses _ _ Hr)
    as (k & levels & E & H1 & H3 & H6).
  cbv zeta. change (Slug (article_fields r)) with (slug_of_record r).
  set (s := slug_of_record r) in *. rewrite E.
  cbn [make_article article_fields Image_URL Level_0_Text Level_0_Questions
       Level_1_Text Level_1_Questions Level_1_Instruction
       Level_2_Text Level_2_Questions
       Level_3_Text Level_3_Questions Level_3_Instruction
       Level_4_Text Level_4_Questions Level_5_Text Level_5_Questions
       Level_6_Text Level_6_Questions Level_6_Instruction
       Level_6_Writing_Prompt].
  rewrite H1, H3, H6.
  split; [now repeat split|]. repeat split.
  - rewrite <- (last_parse_prompt_other_levels directory s 1) by discriminate.
    apply level_fields_come_from.
  - rewrite <- (last_parse_prompt_other_levels directory s 3) by discriminate.
    apply level_fields_come_from.
  - apply level_fields_come_from.
Qed.

(** X17: a record whose slug has no processed file at level 1, 3 or 6 (only
    files at other levels) has nothing but its slug: every other field is
    empty, the headline too. *)
Theorem record_of_other_levels_is_empty (directory : list (str * docx))
    (r : article_data)
    (Hr : In r (main directory))
    (H : forall x, In x (processed directory) ->
                   slug_of x = slug_of_record r ->
                   level_of x <> 1%Z /\ level_of x <> 3%Z /\ level_of x <> 6%Z) :
  article_fields r = empty_fields (slug_of_record r).
Proof.
  assert (Hnone : forall level, (level = 1 \/ level = 3 \/ level = 6)%Z ->
                    last_parse directory (slug_of_record r) level = None).
  { intros level Hl.
    destruct (last_parse directory (slug_of_record r) level) as [e|] eqn:E;
      [|reflexivity].
    apply last_parse_some in E as (name & doc & Hin & E).
    assert (Hx : In (slug_of_record r, level, e) (processed directory)).
    { apply processed_in. now exists (name, doc). }
    apply H in Hx; [|reflexivity]. unfold level_of in Hx. simpl in Hx. lia. }
  destruct (main_record_last_parses _ _ Hr)
    as (k & levels & E & H1 & H3 & H6).
  rewrite Hnone in H1, H3, H6 by lia.
  set (s := slug_of_record r) in *. rewrite E.
  unfold make_article. cbn [article_fields]. now rewrite H1, H3, H6.
Qed.

Lemma record_of_other_levels_is_empty_witness :
  Forall (fun r => article_fields r = empty_fields (slug_of_record r))
         (main level_2_directory).
Proof.
  apply Forall_forall. intros r Hr.
  apply (record_of_other_levels_is_empty level_2_directory r Hr).
  intros x Hx _. vm_compute in Hx. destruct Hx as [<-|[]].
  vm_compute. repeat split; discriminate.
Defined.

Example level_2_record :
  map (fun r => (id r, article_fields r)) (main level_2_directory)
  = [ (lit "rec001", empty_fields (lit "flood")) ].
Proof. reflexivity. Qed.

Lemma headline_of_shape (text : str) :
  ~ In nl (headline_of text) /\ Py.strip (headline_of text) = headline_of text.
Proof.
  unfold headline_of. destruct (Py.truthy text); [|now split].
  split; [|apply trimmed_strip, strip_trimmed].
  intros H. apply in_strip in H. revert H. apply (split_no_sep nl text).
  destruct (Py.split nl text) as [|l ls] eqn:E;
    [now apply split_nonempty in E|now left].
Qed.

Lemma last_parse_headline (directory : list (str * docx)) (slug : str)
    (level : Z) (entry : level_entry) :
  last_parse directory slug level = Some entry ->
  ~ In nl (headline entry) /\ Py.strip (headline entry) = headline entry.
Proof.
  intros E. apply last_parse_some in E as (name & doc & _ & E).
  apply read_file_some in E as (_ & _ & _ & _ & _ & -> & _).
  apply headline_of_shape.
Qed.

(** X18: the headline of every record is one trimmed line: it has no newline
    and no white space at either end. *)
Theorem record_headline_is_one_trimmed_line (directory : list (str * docx)) :
  Forall (fun r =>
            ~ In nl (Headline (article_fields r))
            /\ Py.strip (Headline (article_fields r))
               = Headline (article_fields r))
         (main directory).
Proof.
  apply Forall_forall. intros r Hr.
  destruct (main_record_last_parses _ _ Hr)
    as (k & levels & E & H1 & H3 & H6).
  set (s := slug_of_record r) in *. rewrite E.
  cbn [make_article article_fields Headline]. rewrite H1, H3, H6.
  destruct (last_parse directory s 3) as [e3|] eqn:E3;
    [now apply (last_parse_headline directory s 3)|].
  destruct (last_parse directory s 1) as [e1|] eqn:E1;
    [now apply (last_parse_headline directory s 1)|].
  destruct (last_parse directory s 6) as [e6|] eqn:E6;
    [now apply (last_parse_headline directory s 6)|].
  now split.
Qed.

(** ** The text of a document *)

Lemma not_first_app (f : ascii -> bool) (a b : str) :
  a <> [] -> not_first f (a ++ b) = not_first f a.
Proof. destruct a; [congruence|reflexivity]. Qed.

Lemma paragraph_texts_all (paragraphs : list str) :
  Forall (fun p => p <> [] /\ trimmed p = true) (paragraph_texts paragraphs).
Proof.
  induction paragraphs as [|p ps IH]; [constructor|]. simpl.
  destruct (Py.strip p) as [|c t] eqn:E; [exact IH|]. simpl.
  constructor; [|exact IH]. split; [discriminate|].
  rewrite <- E. apply strip_trimmed.
Qed.

Lemma join_not_nil (sep x : str) (l : list str) :
  x <> [] -> Py.join sep (x :: l) <> [].
Proof.
  destruct x as [|c t]; [congruence|]. intros _ E.
  destruct (join_head sep c t l) as [rest E'].
  discriminate (eq_trans (eq_sym E') E).
Qed.

Lemma join_trimmed (l : list str) :
  Forall (fun p => p <> [] /\ trimmed p = true) l ->
  trimmed (Py.join [nl] l) = true.
Proof.
  induction l as [|x l IH]; [reflexivity|]. intros H.
  inversion H as [|? ? [Hx Ht] Hl]; subst.
  destruct l as [|y l]; [exact Ht|].
  rewrite join_cons_cons. specialize (IH Hl).
  assert (Hj : Py.join [nl] (y :: l) <> []).
  { apply join_not_nil. inversion Hl as [|? ? [Hy _] _]. exact Hy. }
  unfold trimmed in *. apply andb_true_iff in Ht as [Ht1 _].
  apply andb_true_iff in IH as [_ IH2].
  rewrite (not_first_app _ x _ Hx), Ht1.
  rewrite !rev_app_distr, <- app_assoc.
  now rewrite (not_first_app _ _ _ (rev_not_nil _ Hj)), IH2.
Qed.

Lemma paragraph_texts_nil (paragraphs : list str) :
  paragraph_texts paragraphs = [] <-> forallb blank paragraphs = true.
Proof.
  induction paragraphs as [|p ps IH]; [easy|]. simpl.
  unfold blank at 1. rewrite andb_true_iff, <- IH, <- strip_nil_iff.
  destruct (Py.strip p); simpl; [tauto|]. split; [discriminate|].
  intros [H _]. discriminate.
Qed.

(** X19: the text extracted from a document has no white space at either
    end; it is empty when the document cannot be read, and for a readable
    document exactly when every paragraph is blank. *)
Theorem extracted_text_is_trimmed (doc : docx) (paragraphs : list str) :
  Py.strip (extract_text_from_docx doc) = extract_text_from_docx doc
  /\ extract_text_from_docx None = []
  /\ (extract_text_from_docx (Some paragraphs) = []
      <-> forallb blank paragraphs = true).
Proof.
  repeat split.
  - apply trimmed_strip. destruct doc as [ps|]; [|reflexivity].
    apply join_trimmed, paragraph_texts_all.
  - intros H. apply paragraph_texts_nil. simpl in H.
    assert (Hall := paragraph_texts_all paragraphs).
    destruct (paragraph_texts paragraphs) as [|x l]; [reflexivity|].
    inversion Hall as [|? ? [Hx _] _]; subst.
    now apply (join_not_nil [nl] x l) in Hx.
  - intros H. apply paragraph_texts_nil in H. simpl. now rewrite H.
Qed.

(** ** [parse_article_content] *)

Lemma split_first_line (text : str) :
  exists rest,
    Py.split nl text = first_line text :: rest
    /\ Py.join [nl] rest = skipn (length (first_line text) + 1) text.
Proof.
  induction text as [|c t (rest & E & Hj)]; [now exists []|].
  unfold first_line in *. simpl.
  destruct (Ascii.eqb c nl) eqn:Hc; simpl.
  - exists (Py.split nl t). split; [reflexivity|apply join_split].
  - rewrite E. exists rest. split; [reflexivity|exact Hj].
Qed.

(** The loop that looks for the first numbered line, in all cases. *)
Lemma find_question_start_cases (i : Z) (lines : list str) :
  (0 <= i)%Z ->
  (find_question_start i lines = (-1)%Z
   /\ forallb (fun l => negb (numbered (Py.strip l))) lines = true)
  \/ (exists j line,
        find_question_start i lines = (i + Z.of_nat j)%Z
        /\ nth_error lines j = Some line
        /\ numbered (Py.strip line) = true).
Proof.
  revert i; induction lines as [|l ls IH]; intros i Hi; [now left|].
  simpl. destruct (numbered (Py.strip l)) eqn:E.
  - right. exists 0, l. repeat split; [lia|exact E].
  - destruct (IH (i + 1)%Z) as [[H1 H2]|(j & line & H1 & H2 & H3)]; [lia|..].
    + left. now split.
    + right. exists (S j), line. repeat split; [lia|exact H2|exact H3].
Qed.

(** X20: when no line of the text is numbered (digits and a dot at its
    start, once trimmed), [parse_article_content] returns the trimmed first
    line as the headline, all that follows the first newline, untouched, as
    the body, and no questions. *)
Theorem parse_article_content_without_questions (text : str)
    (H : forallb (fun l => negb (numbered (Py.strip l))) (Py.split nl text)
         = true) :
  parse_article_content text
  = (Py.strip (first_line text),
     skipn (length (first_line text) + 1) text, []).
Proof.
  unfold parse_article_content.
  destruct (find_question_start_cases 0 (Py.split nl text))
    as [[E _]|(j & line & _ & Hn & Hnum)]; [lia|..].
  - rewrite E. simpl.
    destruct (split_first_line text) as (rest & -> & Hj).
    cbn [skipn]. now rewrite Hj.
  - exfalso. rewrite forallb_forall in H.
    apply nth_error_In, H in Hn. rewrite Hnum in Hn. discriminate.
Qed.

Lemma parse_article_content_without_questions_witness :
  parse_article_content (Py.join [nl] [lit " Storm "; lit "Body."; lit ""])
  = (Py.strip (first_line (Py.join [nl] [lit " Storm "; lit "Body."; lit ""])),
     skipn (length (first_line
                      (Py.join [nl] [lit " Storm "; lit "Body."; lit ""])) + 1)
           (Py.join [nl] [lit " Storm "; lit "Body."; lit ""]), []).
Proof.
  apply (parse_article_content_without_questions
           (Py.join [nl] [lit " Storm "; lit "Body."; lit ""])).
  reflexivity.
Defined.

Lemma take_drop_while (f : ascii -> bool) (s : str) :
  s = take_while f s ++ drop_while f s.
Proof.
  induction s as [|c t IH]; [reflexivity|]. simpl.
  destruct (f c); [simpl; now rewrite <- IH|reflexivity].
Qed.

(** A numbered string is a run of digits, a dot and the rest. *)
Lemma numbered_shape (s : str) :
  numbered s = true ->
  exists digits rest,
    s = (digits ++ ["."%char]) ++ rest
    /\ digits <> [] /\ forallb Py.isdigit digits = true.
Proof.
  unfold numbered. intros H.
  assert (Hs := take_drop_while Py.isdigit s).
  assert (Hd := take_while_all Py.isdigit s).
  destruct (take_while Py.isdigit s) as [|d ds]; [discriminate|].
  apply startswith_true in H as [rest E]. rewrite E in Hs.
  exists (d :: ds), rest. split; [|split; [discriminate|exact Hd]].
  rewrite Hs. now rewrite <- app_assoc.
Qed.

Lemma numbered_app (digits rest : str) :
  digits <> [] -> forallb Py.isdigit digits = true ->
  numbered ((digits ++ ["."%char]) ++ rest) = true.
Proof.
  intros Hne Hd. unfold numbered. rewrite <- app_assoc.
  rewrite (take_while_app Py.isdigit digits (["."%char] ++ rest) Hd eq_refl).
  rewrite (drop_while_app Py.isdigit digits (["."%char] ++ rest) Hd eq_refl).
  destruct digits; [congruence|reflexivity].
Qed.

Lemma digit_not_space (c : ascii) :
  Py.isdigit c = true -> Py.isspace c = false.
Proof. each_char_under c. Qed.

Lemma digits_dot_trimmed (digits : str) :
  digits <> [] -> forallb Py.isdigit digits = true ->
  trimmed (digits ++ ["."%char]) = true.
Proof.
  intros Hne Hd. unfold trimmed. rewrite rev_app_distr. simpl.
  destruct digits as [|d ds]; [congruence|]. simpl in *.
  apply andb_true_iff in Hd as [Hd _].
  now rewrite (digit_not_space d Hd).
Qed.

Lemma lstrip_spaces (a s : str) :
  forallb Py.isspace a = true -> Py.lstrip (a ++ s) = Py.lstrip s.
Proof.
  induction a as [|c a IH]; [reflexivity|]. simpl. intros H.
  apply andb_true_iff in H as [Hc Ha]. rewrite Hc. now apply IH.
Qed.

Lemma strip_spaces (a s : str) :
  forallb Py.isspace a = true -> Py.strip (a ++ s) = Py.strip s.
Proof. intros H. unfold Py.strip. now rewrite lstrip_spaces. Qed.

(** The trimmed join of lines that start with a line numbered once trimmed
    is numbered. *)
Lemma numbered_join (line : str) (more : list str) :
  numbered (Py.strip line) = true ->
  numbered (Py.strip (Py.join [nl] (line :: more))) = true.
Proof.
  intros H. apply numbered_shape in H as (digits & rest & E & Hne & Hd).
  destruct (strip_decomp line) as (a & b & El & Ha & _).
  assert (Ej : exists tail, Py.join [nl] (line :: more) = line ++ tail).
  { destruct more as [|y more]; [exists []; simpl; now rewrite app_nil_r|].
    now exists ([nl] ++ Py.join [nl] (y :: more)). }
  destruct Ej as [tail ->]. rewrite El, E, <- !app_assoc.
  rewrite (strip_spaces a _ Ha).
  change (digits ++ ["."%char] ++ ?r) with (digits ++ ("."%char :: r)).
  replace (digits ++ "."%char :: rest ++ b ++ tail)
    with ((digits ++ ["."%char]) ++ rest ++ b ++ tail)
    by now rewrite <- app_assoc.
  destruct (strip_keeps_prefix (digits ++ ["."%char]) (rest ++ b ++ tail))
    as [rest' ->].
  - now destruct digits.
  - now apply digits_dot_trimmed.
  - now apply numbered_app.
Qed.

(** X21: the questions that [parse_article_content] returns are empty, when
    no line is numbered, or start with the number and the dot of the first
    numbered line: they are themselves numbered. *)
Theorem parse_article_content_questions_are_numbered (text : str) :
  let quest := snd (parse_article_content text) in
  (quest = []
   /\ forallb (fun l => negb (numbered (Py.strip l))) (Py.split nl text) = true)
  \/ numbered quest = true.
Proof.
  cbv zeta. unfold parse_article_content.
  destruct (find_question_start_cases 0 (Py.split nl text))
    as [[E Hall]|(j & line & E & Hn & Hnum)]; [lia|..]; rewrite E.
  - left. now split.
  - right. destruct (Z.eqb_spec (0 + Z.of_nat j) (-1)); [lia|]. simpl snd.
    rewrite ?Z.add_0_l, ?Nat2Z.id.
    apply nth_error_split in Hn as (l1 & l2 & El & Hlen).
    rewrite El, <- Hlen, skipn_app, skipn_all, Nat.sub_diag. simpl skipn.
    now apply numbered_join.
Qed.

(** X22: when the first line of the text is itself numbered, the body is
    empty and the questions are the whole text, trimmed, headline
    included. *)
Theorem parse_article_content_numbered_first_line (text : str)
    (H : numbered (Py.strip (first_line text)) = true) :
  parse_article_content text
  = (Py.strip (first_line text), [], Py.strip text).
Proof.
  unfold parse_article_content.
  destruct (split_first_line text) as (rest & E & _).
  assert (Ej : Py.join [nl] (first_line text :: rest) = text)
    by (rewrite <- E; apply join_split).
  rewrite E. cbn [find_question_start]. rewrite H.
  change (0 =? -1)%Z with false. cbv iota.
  unfold list_slice. change (Z.to_nat 0) with 0. change (Z.to_nat 1) with 1.
  cbn [Nat.sub firstn skipn]. now rewrite Ej.
Qed.

Lemma parse_article_content_numbered_first_line_witness :
  parse_article_content (Py.join [nl] [lit " 1. Why?"; lit "2. How? "])
  = (Py.strip (first_line (Py.join [nl] [lit " 1. Why?"; lit "2. How? "])),
     [], Py.strip (Py.join [nl] [lit " 1. Why?"; lit "2. How? "])).
Proof.
  apply (parse_article_content_numbered_first_line
           (Py.join [nl] [lit " 1. Why?"; lit "2. How? "])).
  reflexivity.
Defined.
